(** * Semantic video retriever: scene segmentation and keyframe embedding

    A shallow embedding of the two processing notebooks of the repository:

    - the splitting notebook: [convert_to_mp4], [split_video] and the loop
      that runs them over the raw video directory;
    - [3_generate_clip_embeddings.ipynb]: [extract_middle_frame],
      [generate_clip_embedding] and the loop over the scene directory.

    Python values are modelled as the code has them: [float] is IEEE
    binary64 (Rocq's primitive floats), [int] is [Z], [str] is [string]
    (ASCII), [None]-or-value is [option].  The file system is a finite map
    from paths to file contents; [print] and the calls to external
    collaborators (FFmpeg, seeking in a decoder, [np.save]) are recorded in
    an event trace carried by the world. *)

From Stdlib Require Import ZArith Floats Ascii DecimalString Lia.
From Stdlib Require DecimalN DecimalPos.
From stdpp Require Import gmap strings list fin_maps sorting.

Local Open Scope Z_scope.

(** ** Python built-ins used by the notebooks *)
Module Py.

(** [float(z)] for a Python [int]: nearest binary64 value. *)
Definition float_of_Z (z : Z) : float :=
  SF2Prim (binary_normalize prec emax z 0 false).

(** Magnitude of a finite binary64 value [m * 2^e], truncated. *)
Definition trunc_mag (m : positive) (e : Z) : Z := Z.shiftl (Z.pos m) e.

(** [int(x)] for a float: truncation toward zero.  [None] stands for the
    exception Python raises on NaN ([ValueError]) and on an infinity
    ([OverflowError]). *)
Definition int_of_float (x : float) : option Z :=
  match Prim2SF x with
  | S754_zero _ => Some 0
  | S754_finite s m e =>
      Some (if s then - trunc_mag m e else trunc_mag m e)
  | S754_infinity _ => None
  | S754_nan => None
  end.

(** Magnitude of [m * 2^e] rounded to the nearest integer, ties to even. *)
Definition round_mag (m : positive) (e : Z) : Z :=
  if 0 <=? e then Z.shiftl (Z.pos m) e
  else
    let d := 2 ^ (- e) in
    let q := Z.pos m / d in
    let r := Z.pos m mod d in
    if 2 * r <? d then q
    else if d <? 2 * r then q + 1
    else if Z.even q then q else q + 1.

(** [round(x)] for a float (one argument): nearest integer, ties to even;
    [None] for the exception on NaN and infinities. *)
Definition round_float (x : float) : option Z :=
  match Prim2SF x with
  | S754_zero _ => Some 0
  | S754_finite s m e => Some (if s then - round_mag m e else round_mag m e)
  | S754_infinity _ => None
  | S754_nan => None
  end.

(** *** Strings *)

Fixpoint str_take (n : nat) (s : string) : string :=
  match n, s with
  | S k, String c r => String c (str_take k r)
  | _, _ => ""
  end.

Fixpoint str_drop (n : nat) (s : string) : string :=
  match n, s with
  | S k, String _ r => str_drop k r
  | _, _ => s
  end.

Definition lower_char (c : ascii) : ascii :=
  let n := Ascii.N_of_ascii c in
  if ((65 <=? n) && (n <=? 90))%N then Ascii.ascii_of_N (n + 32) else c.

(** [s.lower()] on ASCII text. *)
Fixpoint str_lower (s : string) : string :=
  match s with
  | "" => ""
  | String c r => String (lower_char c) (str_lower r)
  end.

Definition str_startswith (s pre : string) : bool := String.prefix pre s.

(** [s.endswith(suf)]. *)
Definition str_endswith (s suf : string) : bool :=
  (String.length suf <=? String.length s)%nat
  && String.eqb (str_drop (String.length s - String.length suf) s) suf.

(** [s.endswith((suf1, suf2, ...))]. *)
Definition str_endswith_any (s : string) (sufs : list string) : bool :=
  existsb (str_endswith s) sufs.

Fixpoint rfind_from (c : ascii) (s : string) (i last : Z) : Z :=
  match s with
  | "" => last
  | String a r => rfind_from c r (i + 1) (if Ascii.eqb a c then i else last)
  end.

(** [s.rfind(c)] for a one-character [c]: the last index, or [-1]. *)
Definition str_rfind (s : string) (c : ascii) : Z := rfind_from c s 0 (-1).

(** The scan of [s.replace(old, new)]: [skip] characters of a match that
    has just been replaced are still to be passed over. *)
Fixpoint replace_go (old new : string) (skip : nat) (s : string) : string :=
  match s with
  | "" => ""
  | String c r =>
      match skip with
      | S k => replace_go old new k r
      | O =>
          if String.prefix old s
          then new +:+ replace_go old new (String.length old - 1) r
          else String c (replace_go old new 0 r)
      end
  end.

(** [s.replace(old, new)] for a non-empty [old]: every non-overlapping
    occurrence, leftmost first, is replaced. *)
Definition str_replace (s old new : string) : string := replace_go old new 0 s.

(** [s.replace(old, new, 1)]: only the leftmost occurrence is replaced. *)
Fixpoint str_replace_first (s old new : string) : string :=
  match s with
  | "" => ""
  | String c r =>
      if String.prefix old s then new +:+ str_drop (String.length old) s
      else String c (str_replace_first r old new)
  end.

(** [old in s]. *)
Fixpoint str_contains (s old : string) : bool :=
  String.prefix old s ||
  match s with
  | "" => false
  | String _ r => str_contains r old
  end.

Fixpoint str_repeat (c : ascii) (n : nat) : string :=
  match n with
  | O => ""
  | S k => String c (str_repeat c k)
  end.

Definition digits (n : Z) : string :=
  NilZero.string_of_uint (N.to_uint (Z.abs_N n)).

Definition zero_pad (width : nat) (s : string) : string :=
  str_repeat "0"%char (width - String.length s) +:+ s.

(** [f"{n:03d}"]: decimal, zero-padded to width 3, sign first. *)
Definition format_03d (n : Z) : string :=
  if n <? 0 then "-" +:+ zero_pad 2 (digits n) else zero_pad 3 (digits n).

(** *** [os.path] (POSIX flavour) *)

(** [os.path.basename(p)]. *)
Definition basename (p : string) : string :=
  str_drop (Z.to_nat (str_rfind p "/" + 1)) p.

Fixpoint all_dots (s : string) : bool :=
  match s with
  | "" => true
  | String c r => Ascii.eqb c "." && all_dots r
  end.

(** [os.path.splitext(p)]: split at the last dot of the last component,
    unless that component has only leading dots before it. *)
Definition splitext (p : string) : string * string :=
  let sepIndex := str_rfind p "/" in
  let dotIndex := str_rfind p "." in
  if (sepIndex <? dotIndex)
     && negb (all_dots (str_take (Z.to_nat (dotIndex - (sepIndex + 1)))
                                 (str_drop (Z.to_nat (sepIndex + 1)) p)))
  then (str_take (Z.to_nat dotIndex) p, str_drop (Z.to_nat dotIndex) p)
  else (p, "").

(** [os.path.join(a, b)]. *)
Definition join (a b : string) : string :=
  if str_startswith b "/" then b
  else if String.eqb a "" || str_endswith a "/" then a +:+ b
  else a +:+ "/" +:+ b.

End Py.

(** ** Control flow: [while] loops *)

(** One pass through a loop body either falls through to the next test of
    the condition or leaves the loop through [break]. *)
Inductive step (S : Type) : Type :=
| Next (s : S)
| Break (s : S).
Arguments Next {S} s.
Arguments Break {S} s.

(** [while cond: body], giving up after [fuel] tests of the condition:
    [None] means the loop was still running then. *)
Fixpoint while {S : Type} (cond : S -> bool) (body : S -> step S)
    (fuel : nat) (s : S) : option S :=
  match fuel with
  | O => None
  | Datatypes.S k =>
      if cond s then
        match body s with
        | Next s' => while cond body k s'
        | Break s' => Some s'
        end
      else Some s
  end.

(** The state at the head of the loop after exactly [n] full passes, when
    the loop does run that long. *)
Fixpoint after {S : Type} (cond : S -> bool) (body : S -> step S)
    (n : nat) (s : S) : option S :=
  match n with
  | O => Some s
  | Datatypes.S k =>
      if cond s then
        match body s with
        | Next s' => after cond body k s'
        | Break _ => None
        end
      else None
  end.

(** How a call ends: it returns, it raises, or it is still running when the
    fuel is spent. *)
Inductive outcome (A : Type) : Type :=
| Returned (a : A)
| Raised
| OutOfFuel.
Arguments Returned {A} a.
Arguments Raised {A}.
Arguments OutOfFuel {A}.

(** ** Files, captures and the world *)
Section Model.

Context {Frame Vec : Type}.

(** What a decoder reports and delivers for one video file.  [v_stream] is
    the sequence of results of successive [cap.read()] calls on a freshly
    opened capture ([None]: the call returned [ret = False]); once the list
    is used up every further read fails.  [v_seek i] is the same sequence
    after [cap.set(CAP_PROP_POS_FRAMES, i)].  Frame count and dimensions
    are the integers OpenCV reports (as integral doubles, so [int(...)] is
    the identity on them); the frame rate is a genuine double. *)
Record Video : Type := {
  v_fps : float;
  v_frame_count : Z;
  v_width : Z;
  v_height : Z;
  v_stream : list (option Frame);
  v_seek : Z -> list (option Frame)
}.

Inductive File : Type :=
| FVideo (v : Video)      (* a container OpenCV can open *)
| FArray (e : Vec)        (* a [.npy] array *)
| FOther.                 (* anything else: [isOpened()] is false *)

Inductive Event : Type :=
| Print_converting (file_path : string)
| Print_converted (output_path : string)
| Print_ffmpeg_failed (file_path : string)
| Print_failed_to_open (file_path : string)
| Print_processing (video_name : string) (total_frames : Z) (fps : float)
| Print_done (video_name : string) (clip_idx : Z)
| Print_could_not_open (video_path : string)
| Print_failed_middle (video_path : string)
| Run_ffmpeg (file_path output_path : string)
| Seek (video_path : string) (index : Z)
| Np_save (path : string).

Record World : Type := {
  fs : gmap string File;
  trace : list Event
}.

Definition emit (e : Event) (w : World) : World :=
  {| fs := fs w; trace := trace w ++ [e] |}.

(** [os.path.exists(p)]. *)
Definition path_exists (p : string) (w : World) : bool :=
  bool_decide (is_Some (fs w !! p)).

(** An open [cv2.VideoCapture]. *)
Record Capture : Type := {
  cap_video : Video;
  cap_stream : list (option Frame)
}.

(** A capture freshly opened on a video. *)
Definition open_capture (v : Video) : Capture :=
  {| cap_video := v; cap_stream := v_stream v |}.

(** [cv2.VideoCapture(path)]; [None] when [isOpened()] is false. *)
Definition VideoCapture (m : gmap string File) (path : string) : option Capture :=
  match m !! path with
  | Some (FVideo v) => Some (open_capture v)
  | _ => None
  end.

(** [ret, frame = cap.read()]. *)
Definition cap_read (c : Capture) : option Frame * Capture :=
  match cap_stream c with
  | [] => (None, c)
  | r :: rest => (r, {| cap_video := cap_video c; cap_stream := rest |})
  end.

(** [cap.set(cv2.CAP_PROP_POS_FRAMES, i)]. *)
Definition cap_set_pos (c : Capture) (i : Z) : Capture :=
  {| cap_video := cap_video c; cap_stream := v_seek (cap_video c) i |}.

(** The file a released [cv2.VideoWriter] leaves behind, under the
    assumption that the writer opened and that the codec is lossless: the
    file then decodes to the frames written, in order, and reports their
    number and the frame rate given.  A writer that fails to open, a file
    with no frame that cannot be reopened and a container that rounds the
    frame rate are outside this model. *)
Definition written_video (fps : float) (width height : Z) (frames : list Frame) : Video :=
  {| v_fps := fps;
     v_frame_count := Z.of_nat (length frames);
     v_width := width;
     v_height := height;
     v_stream := Some <$> frames;
     v_seek := fun i => if i <? 0 then [] else Some <$> drop (Z.to_nat i) frames |}.

End Model.

Arguments Video : clear implicits.
Arguments File : clear implicits.
Arguments World : clear implicits.
Arguments Capture : clear implicits.

(** ** The splitting notebook: normalisation and segmentation *)

Definition INPUT_DIR : string := "video_data/raw_videos".
Definition TEMP_DIR : string := "video_data/converted_videos".
Definition OUTPUT_DIR : string := "video_data/scenes".
Definition CLIP_DURATION : Z := 5.

Section Splitting.

Context {Frame Vec : Type}.

(** FFmpeg as the notebook runs it, [ffmpeg -y -i file_path ... output_path]:
    its exit status and the file system it leaves behind. *)
Variable ffmpeg :
  string -> string -> gmap string (File Frame Vec) -> Z * gmap string (File Frame Vec).

Definition base_name_of (file_path : string) : string :=
  (Py.splitext (Py.basename file_path)).1.

Definition mp4_output_path (file_path out_dir : string) : string :=
  Py.join out_dir (base_name_of file_path +:+ ".mp4").

(** [convert_to_mp4(file_path, out_dir)].  [subprocess.run(..., check=True)]
    raises [CalledProcessError] on a non-zero exit status, which the
    function catches. *)
Definition convert_to_mp4 (file_path out_dir : string) (w : World Frame Vec)
  : option string * World Frame Vec :=
  let output_path := mp4_output_path file_path out_dir in
  if path_exists output_path w then (Some output_path, w)
  else
    let w1 := emit (Print_converting file_path) w in
    let '(status, fs') := ffmpeg file_path output_path (fs w1) in
    let w2 := {| fs := fs'; trace := trace w1 ++ [Run_ffmpeg file_path output_path] |} in
    if status =? 0 then (Some output_path, emit (Print_converted output_path) w2)
    else (None, emit (Print_ffmpeg_failed file_path) w2).

(** One clip file: the sequence index in its name, the value of [frame_idx]
    when its writer was opened, its path and the frames written to it. *)
Record Clip : Type := {
  c_index : Z;
  c_start : Z;
  c_path : string;
  c_frames : list Frame
}.

(** Variables of the inner loop. *)
Record Inner : Type := {
  in_cap : Capture Frame;
  in_writer : list Frame;
  frames_written : Z;
  in_frame_idx : Z
}.

(** Variables of the outer loop; [emitted] lists the clip files in the
    order in which their writers were released. *)
Record Outer : Type := {
  cap : Capture Frame;
  clip_idx : Z;
  frame_idx : Z;
  emitted : list Clip
}.

Definition inner_cond (clip_frames total_frames : Z) (s : Inner) : bool :=
  (frames_written s <? clip_frames) && (in_frame_idx s <? total_frames).

Definition inner_body (s : Inner) : step Inner :=
  match cap_read (in_cap s) with
  | (None, c) =>
      Break {| in_cap := c; in_writer := in_writer s;
               frames_written := frames_written s;
               in_frame_idx := in_frame_idx s |}
  | (Some frame, c) =>
      Next {| in_cap := c; in_writer := in_writer s ++ [frame];
              frames_written := frames_written s + 1;
              in_frame_idx := in_frame_idx s + 1 |}
  end.

(** The inner loop.  [clip_frames - frames_written] decreases on every
    pass, so one more test than that many passes always reaches the exit
    (lemma [inner_loop_exits]). *)
Definition inner_loop (clip_frames total_frames : Z) (s : Inner) : Inner :=
  default s (while (inner_cond clip_frames total_frames) inner_body
                   (S (Z.to_nat (clip_frames - frames_written s))) s).

Definition clip_path (out_dir video_name : string) (clip_idx : Z) : string :=
  Py.join out_dir (video_name +:+ "_clip_" +:+ Py.format_03d clip_idx +:+ ".mp4").

Definition outer_cond (total_frames : Z) (s : Outer) : bool :=
  frame_idx s <? total_frames.

Definition outer_body (out_dir video_name : string) (clip_frames total_frames : Z)
    (s : Outer) : step Outer :=
  let out_path := clip_path out_dir video_name (clip_idx s) in
  let r := inner_loop clip_frames total_frames
             {| in_cap := cap s; in_writer := []; frames_written := 0;
                in_frame_idx := frame_idx s |} in
  Next {| cap := in_cap r;
          clip_idx := clip_idx s + 1;
          frame_idx := in_frame_idx r;
          emitted := emitted s ++
            [{| c_index := clip_idx s; c_start := frame_idx s;
                c_path := out_path; c_frames := in_writer r |}] |}.

(** [clip_frames = int(fps * clip_duration)]. *)
Definition clip_frames_of (v : Video Frame) (clip_duration : Z) : option Z :=
  Py.int_of_float (v_fps v * Py.float_of_Z clip_duration)%float.

Definition outer_init (c : Capture Frame) : Outer :=
  {| cap := c; clip_idx := 0; frame_idx := 0; emitted := [] |}.

(** The [while frame_idx < total_frames] loop of [split_video] on an opened
    capture. *)
Definition segment (fuel : nat) (out_dir video_name : string)
    (clip_frames : Z) (c : Capture Frame) : option Outer :=
  while (outer_cond (v_frame_count (cap_video c)))
        (outer_body out_dir video_name clip_frames (v_frame_count (cap_video c)))
        fuel (outer_init c).

(** The state of that loop after [n] clips, if it gets that far. *)
Definition segment_after (n : nat) (out_dir video_name : string)
    (clip_frames : Z) (c : Capture Frame) : option Outer :=
  after (outer_cond (v_frame_count (cap_video c)))
        (outer_body out_dir video_name clip_frames (v_frame_count (cap_video c)))
        n (outer_init c).

Definition clip_file (v : Video Frame) (c : Clip) : File Frame Vec :=
  FVideo (written_video (v_fps v) (v_width v) (v_height v) (c_frames c)).

(** The file system once the given clip files have been written, in order,
    every writer assumed to have opened its path. *)
Definition write_clips (v : Video Frame) (m : gmap string (File Frame Vec))
    (clips : list Clip) : gmap string (File Frame Vec) :=
  foldl (fun acc c => <[c_path c := clip_file v c]> acc) m clips.

(** [split_video(file_path, out_dir, clip_duration)].  The loop does not read
    the file system, so the clip files are stored once it has ended, in
    the order in which their writers were released. *)
Definition split_video (fuel : nat) (file_path out_dir : string)
    (clip_duration : Z) (w : World Frame Vec) : outcome (World Frame Vec) :=
  let video_name := base_name_of file_path in
  match VideoCapture (fs w) file_path with
  | None => Returned (emit (Print_failed_to_open file_path) w)
  | Some c =>
      let v := cap_video c in
      match clip_frames_of v clip_duration with
      | None => Raised
      | Some clip_frames =>
          let w1 := emit (Print_processing video_name (v_frame_count v) (v_fps v)) w in
          match segment fuel out_dir video_name clip_frames c with
          | None => OutOfFuel
          | Some s =>
              Returned (emit (Print_done video_name (clip_idx s))
                             {| fs := write_clips v (fs w1) (emitted s);
                                trace := trace w1 |})
          end
      end
  end.

(** The files the driver takes from [os.listdir(INPUT_DIR)]. *)
Definition video_files (listing : list string) : list string :=
  List.filter
    (fun f => Py.str_endswith_any (Py.str_lower f) [".mp4"; ".avi"; ".mov"])
    listing.

(** [if mp4_path:] *)
Definition truthy (mp4_path : option string) : bool :=
  match mp4_path with
  | Some (String _ _) => true
  | _ => false
  end.

(** The driver loop over [video_files]; [fuel] bounds each [split_video]. *)
Fixpoint driver (fuel : nat) (files : list string) (w : World Frame Vec)
  : outcome (World Frame Vec) :=
  match files with
  | [] => Returned w
  | video_file :: rest =>
      let full_path := Py.join INPUT_DIR video_file in
      let '(mp4_path, w1) := convert_to_mp4 full_path TEMP_DIR w in
      if truthy mp4_path then
        match split_video fuel (default "" mp4_path) OUTPUT_DIR CLIP_DURATION w1 with
        | Returned w2 => driver fuel rest w2
        | Raised => Raised
        | OutOfFuel => OutOfFuel
        end
      else driver fuel rest w1
  end.

End Splitting.

Arguments Clip : clear implicits.
Arguments Inner : clear implicits.
Arguments Outer : clear implicits.

(** ** The embedding notebook: keyframe extraction and embedding *)

Definition SCENE_DIR : string := "video_data/scenes".
Definition EMBEDDING_DIR : string := "embeddings".

(** [scene_file.replace('.mp4', '.npy')]. *)
Definition embedding_name (scene_file : string) : string :=
  Py.str_replace scene_file ".mp4" ".npy".


(** The file name [np.save] writes to: it appends [.npy] to a name that
    does not already end with it. *)
Definition npy_file_name (path : string) : string :=
  if Py.str_endswith path ".npy" then path else path +:+ ".npy".

Section Embedding.

Context {Frame Vec : Type}.

(** The CLIP image encoder with its pre- and post-processing (colour
    conversion, processor, [get_image_features], [flatten]), as a
    function. *)
Variable encode : Frame -> Vec.

(** [extract_middle_frame(video_path)]. *)
Definition extract_middle_frame (video_path : string) (w : World Frame Vec)
  : option Frame * World Frame Vec :=
  match VideoCapture (fs w) video_path with
  | None => (None, emit (Print_could_not_open video_path) w)
  | Some c =>
      let total_frames := v_frame_count (cap_video c) in
      let middle_frame_index := total_frames / 2 in
      let c1 := cap_set_pos c middle_frame_index in
      let w1 := emit (Seek video_path middle_frame_index) w in
      match cap_read c1 with
      | (None, _) => (None, emit (Print_failed_middle video_path) w1)
      | (Some frame, _) => (Some frame, w1)
      end
  end.

(** [generate_clip_embedding(video_path, model, processor)]. *)
Definition generate_clip_embedding (video_path : string) (w : World Frame Vec)
  : option Vec * World Frame Vec :=
  match extract_middle_frame video_path w with
  | (None, w1) => (None, w1)
  | (Some frame, w1) => (Some (encode frame), w1)
  end.

(** [np.save(out_path, embedding)]. *)
Definition np_save (out_path : string) (embedding : Vec) (w : World Frame Vec)
  : World Frame Vec :=
  {| fs := <[npy_file_name out_path := FArray embedding]> (fs w);
     trace := trace w ++ [Np_save (npy_file_name out_path)] |}.

(** The files taken from [os.listdir(SCENE_DIR)], sorted. *)
Definition scene_files (listing : list string) : list string :=
  merge_sort String.le
    (List.filter (fun f => Py.str_endswith (Py.str_lower f) ".mp4") listing).

(** The body of the loop over [scene_files]. *)
Definition scene_body (scene_file : string) (w : World Frame Vec) : World Frame Vec :=
  let scene_path := Py.join SCENE_DIR scene_file in
  match generate_clip_embedding scene_path w with
  | (Some embedding, w1) =>
      let out_path := Py.join EMBEDDING_DIR (embedding_name scene_file) in
      np_save out_path embedding w1
  | (None, w1) => w1
  end.

(** The loop over [scene_files]. *)
Definition scene_loop (files : list string) (w : World Frame Vec) : World Frame Vec :=
  foldl (fun acc scene_file => scene_body scene_file acc) w files.

End Embedding.

(** ** Specification-side functions *)

(** What [n] successive reads deliver when reading stops at the first
    failed read: the frames obtained and the rest of the stream. *)
Fixpoint read_upto {Frame : Type} (n : nat) (st : list (option Frame))
  : list Frame * list (option Frame) :=
  match n, st with
  | S k, Some f :: r => let '(got, r') := read_upto k r in (f :: got, r')
  | S k, None :: r => ([], r)
  | _, _ => ([], st)
  end.

(** Total number of frames in a list of clips. *)
Definition frames_total {Frame : Type} (clips : list (Clip Frame)) : Z :=
  foldr (fun c acc => Z.of_nat (length (c_frames c)) + acc) 0 clips.

(** Clips laid end to end from offset [start], numbered from [idx]. *)
Fixpoint contiguous_from {Frame : Type} (idx start : Z) (clips : list (Clip Frame)) : Prop :=
  match clips with
  | [] => True
  | c :: rest =>
      c_index c = idx /\ c_start c = start /\
      contiguous_from (idx + 1) (start + Z.of_nat (length (c_frames c))) rest
  end.

(** Every clip but the last holds exactly [budget] frames; the last holds
    at least one and at most [budget]. *)
Fixpoint full_then_last {Frame : Type} (budget : Z) (clips : list (Clip Frame)) : Prop :=
  match clips with
  | [] => True
  | c :: rest =>
      match rest with
      | [] => 0 < Z.of_nat (length (c_frames c)) <= budget
      | _ :: _ => Z.of_nat (length (c_frames c)) = budget
      end /\ full_then_last budget rest
  end.

(** The loop invariant of segmentation.  The clips written so far are
    numbered from 0 and laid end to end from offset 0 up to [frame_idx];
    their frames are, in order, the frames the reads so far delivered. *)
Definition segment_inv {Frame : Type} (total_frames : Z)
    (stream0 : list (option Frame)) (s : Outer Frame) : Prop :=
  clip_idx s = Z.of_nat (length (emitted s)) /\
  contiguous_from 0 0 (emitted s) /\
  frame_idx s = frames_total (emitted s) /\
  frame_idx s <= Z.max 0 total_frames /\
  exists consumed,
    stream0 = consumed ++ cap_stream (cap s) /\
    concat (c_frames <$> emitted s) = omap id consumed.

(** [c in s] for a character. *)
Fixpoint char_in (c : ascii) (s : string) : bool :=
  match s with
  | "" => false
  | String a r => Ascii.eqb a c || char_in c r
  end.


(** The seeks recorded in a world's trace, oldest first. *)
Definition seeks {Frame Vec : Type} (w : World Frame Vec) : list (string * Z) :=
  omap (fun e => match e with Seek p i => Some (p, i) | _ => None end) (trace w).

(** The paths [np.save] wrote to, oldest first. *)
Definition saves {Frame Vec : Type} (w : World Frame Vec) : list string :=
  omap (fun e => match e with Np_save p => Some p | _ => None end) (trace w).

(** The artifact file of a scene file. *)
Definition artifact_path (scene_file : string) : string :=
  npy_file_name (Py.join EMBEDDING_DIR (embedding_name scene_file)).

(** The frame a decoder delivers first after seeking to [i]. *)
Definition frame_at {Frame : Type} (v : Video Frame) (i : Z) : option Frame :=
  match v_seek v i with
  | Some frame :: _ => Some frame
  | _ => None
  end.

(** The frame budget as the specification words it:
    [round(frame_rate * clip_duration)]. *)
Definition spec_clip_frame_count {Frame : Type} (v : Video Frame) (clip_duration : Z)
  : option Z :=
  Py.round_float (v_fps v * Py.float_of_Z clip_duration)%float.

(** The clips a well-behaved stream is cut into: [budget] frames each,
    numbered from [idx], laid out from offset [start]. *)
Fixpoint chunk_clips {Frame : Type} (out_dir video_name : string) (budget fuel : nat)
    (idx start : Z) (frames : list Frame) : list (Clip Frame) :=
  match fuel with
  | O => []
  | S k =>
      match frames with
      | [] => []
      | _ :: _ =>
          {| c_index := idx; c_start := start;
             c_path := clip_path out_dir video_name idx;
             c_frames := take budget frames |}
          :: chunk_clips out_dir video_name budget k (idx + 1)
               (start + Z.of_nat (length (take budget frames)))
               (drop budget frames)
      end
  end.

(** The frames a stream can deliver: its successful reads, in order. *)
Definition deliverable {Frame : Type} (st : list (option Frame)) : list Frame :=
  omap id st.

(** [int(s)] for a string of decimal digits. *)
Definition int_of_digits (s : string) : option Z :=
  match NilEmpty.uint_of_string s with
  | Some d => Some (Z.of_N (N.of_uint d))
  | None => None
  end.

(** The file name [split_video] builds for clip [idx] of [video_name]. *)
Definition clip_file_name (video_name : string) (idx : Z) : string :=
  video_name +:+ "_clip_" +:+ Py.format_03d idx +:+ ".mp4".

(** The frame [extract_middle_frame] finds for [path] in a file system. *)
Definition middle_frame_in {Frame Vec : Type} (m : gmap string (File Frame Vec))
    (path : string) : option Frame :=
  (extract_middle_frame path {| fs := m; trace := [] |}).1.

(** The artifacts the scene loop stores for [files], read off the file
    system [m]: one per scene file with a readable middle frame. *)
Definition scene_writes {Frame Vec : Type} (encode : Frame -> Vec)
    (files : list string) (m : gmap string (File Frame Vec))
  : list (string * File Frame Vec) :=
  omap (fun f => match middle_frame_in m (Py.join SCENE_DIR f) with
                 | Some frame => Some (artifact_path f, FArray (encode frame))
                 | None => None
                 end) files.

Definition store_all {Frame Vec : Type} (m : gmap string (File Frame Vec))
    (writes : list (string * File Frame Vec)) : gmap string (File Frame Vec) :=
  foldl (fun acc kv => <[kv.1 := kv.2]> acc) m writes.

(** ** Concrete inputs *)

(** Frames are numbered; a well-formed video of [n] frames delivers frames
    [0 .. n-1] and then fails every read. *)
Definition numbered (n : nat) : list nat := seq 0 n.

Definition plain_video (fps : float) (reported : Z) (frames : list nat) : Video nat :=
  {| v_fps := fps; v_frame_count := reported; v_width := 640; v_height := 360;
     v_stream := Some <$> frames;
     v_seek := fun i => if i <? 0 then [] else Some <$> drop (Z.to_nat i) frames |}.

(** NTSC film rate, shown as 23.98 fps. *)
Definition fps_ntsc_film : float := (24000 / 1001)%float.

(** Scenario A: 307 frames at 24 fps. *)
Definition video_307 : Video nat := plain_video 24 307 (numbered 307).

(** Scenario B: 443 frames at 23.98 fps. *)
Definition video_443 : Video nat := plain_video fps_ntsc_film 443 (numbered 443).

(** A video whose metadata report a frame rate of zero. *)
Definition zero_fps_video : Video nat := plain_video 0 5 (numbered 5).

(** A video whose stream ends before the reported frame count: 8 frames
    announced, 6 delivered. *)
Definition truncated_video : Video nat := plain_video 1 8 (numbered 6).

(** Seven frames at 1 fps: two clips of 5 and 2 frames. *)
Definition small_video : Video nat := plain_video 1 7 (numbered 7).

(** An FFmpeg that succeeds on files it can read and copies their content
    to the output path, and fails (status 1) otherwise. *)
Definition ffmpeg_copy (file_path output_path : string)
    (m : gmap string (File nat (list Z))) : Z * gmap string (File nat (list Z)) :=
  match m !! file_path with
  | Some (FVideo v) => (0, <[output_path := FVideo v]> m)
  | _ => (1, m)
  end.


(** A scene directory with one readable clip and one file no decoder can
    read. *)
Definition scene_world : World nat (list Z) :=
  {| fs := {[ "video_data/scenes/a_clip_000.mp4" := FVideo small_video;
              "video_data/scenes/bad.mp4" := FOther ]};
     trace := [] |}.

(** A stand-in encoder: the embedding of frame [n] is the vector [[n]]. *)
Definition encode_number (n : nat) : list Z := [Z.of_nat n].

(** A file for which the decoder reports a negative frame count. *)
Definition negative_count_video : Video nat := plain_video 25 (-1) (numbered 1).

(** A world holding one video file and nothing else. *)
Definition world_with (path : string) (v : Video nat) : World nat (list Z) :=
  {| fs := {[ path := FVideo v ]}; trace := [] |}.

(** Scenario A as the driver finds it: one raw [.mov] file. *)
Definition raw_world : World nat (list Z) :=
  world_with "video_data/raw_videos/a.mov" video_307.

Definition clip_lengths (clips : list (Clip nat)) : list nat :=
  (fun c => length (c_frames c)) <$> clips.


(** * Properties *)

(** ** Python built-ins on examples *)
Example float_of_Z_5 : Py.float_of_Z 5 = 5%float.
Proof. reflexivity. Qed.

Example int_of_float_ex :
  Py.int_of_float 119.875%float = Some 119 /\
  Py.int_of_float (-2.5)%float = Some (-2) /\
  Py.round_float 119.875%float = Some 120 /\
  Py.round_float 2.5%float = Some 2 /\
  Py.round_float 3.5%float = Some 4 /\
  Py.int_of_float nan = None.
Proof. repeat split; reflexivity. Qed.

Example splitext_ex :
  Py.splitext "a.mov" = ("a", ".mov") /\
  Py.splitext ".bashrc" = (".bashrc", "") /\
  Py.splitext "d.x/abc" = ("d.x/abc", "") /\
  Py.splitext "a.mp4.mov" = ("a.mp4", ".mov") /\
  Py.basename "video_data/raw_videos/a.mov" = "a.mov" /\
  Py.join "video_data/scenes" "a_clip_000.mp4" = "video_data/scenes/a_clip_000.mp4" /\
  Py.format_03d 7 = "007" /\ Py.format_03d 1234 = "1234" /\
  Py.str_replace "a.mp4_clip_000.mp4" ".mp4" ".npy" = "a.npy_clip_000.npy" /\
  Py.str_replace_first "a.mp4_clip_000.mp4" ".mp4" ".npy" = "a.npy_clip_000.mp4" /\
  Py.str_endswith_any (Py.str_lower "X.MOV") [".mp4"; ".avi"; ".mov"] = true.
Proof. repeat split; reflexivity. Qed.

(** ** Loops *)
Section WhileFacts.

Context {S : Type} (cond : S -> bool) (body : S -> step S).

Lemma while_more_fuel (fuel fuel' : nat) (s r : S) :
  while cond body fuel s = Some r -> (fuel <= fuel')%nat ->
  while cond body fuel' s = Some r.
Proof.
  revert fuel' s. induction fuel as [|k IH]; intros fuel' s H Hle; [discriminate|].
  destruct fuel' as [|k']; [lia|]. simpl in *.
  destruct (cond s); [|exact H].
  destruct (body s) as [s'|s']; [|exact H].
  apply IH; [exact H | lia].
Qed.

(** Partial correctness: an invariant kept by the body holds at the exit
    together with the negated condition. *)
Lemma while_invariant (I : S -> Prop) (fuel : nat) (s r : S) :
  (forall x, I x -> cond x = true ->
     match body x with Next y => I y | Break y => I y /\ cond y = false end) ->
  I s -> while cond body fuel s = Some r -> I r /\ cond r = false.
Proof.
  intros Hstep. revert s. induction fuel as [|k IH]; intros s Hs H; [discriminate|].
  simpl in H. destruct (cond s) eqn:Hc.
  - specialize (Hstep s Hs Hc). destruct (body s) as [y|y].
    + exact (IH y Hstep H).
    + inversion H; subst. exact Hstep.
  - inversion H; subst. auto.
Qed.

(** A loop whose condition is kept true by a body that never breaks is
    still running whatever the fuel. *)
Lemma while_never_exits (I : S -> Prop) :
  (forall x, I x -> cond x = true /\ exists y, body x = Next y /\ I y) ->
  forall fuel s, I s -> while cond body fuel s = None.
Proof.
  intros Hstep fuel. induction fuel as [|k IH]; intros s Hs; [reflexivity|].
  simpl. destruct (Hstep s Hs) as [-> (y & -> & Hy)]. auto.
Qed.

Lemma after_never_exits (I : S -> Prop) :
  (forall x, I x -> cond x = true /\ exists y, body x = Next y /\ I y) ->
  forall n s, I s -> exists r, after cond body n s = Some r /\ I r.
Proof.
  intros Hstep n. induction n as [|k IH]; intros s Hs; [eauto|].
  simpl. destruct (Hstep s Hs) as [-> (y & -> & Hy)]. auto.
Qed.

Lemma after_while (n fuel : nat) (s r : S) :
  after cond body n s = Some r ->
  while cond body (n + fuel) s = while cond body fuel r.
Proof.
  revert s. induction n as [|k IH]; intros s H; simpl in *.
  - inversion H; reflexivity.
  - destruct (cond s); [|discriminate].
    destruct (body s) as [y|y]; [|discriminate]. auto.
Qed.

Lemma after_while_running (n fuel : nat) (s r : S) :
  after cond body n s = Some r -> (fuel <= n)%nat ->
  while cond body fuel s = None.
Proof.
  revert fuel s. induction n as [|k IH]; intros fuel s H Hle.
  - assert (fuel = O) as -> by lia. reflexivity.
  - destruct fuel as [|fuel]; [reflexivity|]. simpl in *.
    destruct (cond s); [|discriminate].
    destruct (body s) as [y|y]; [|discriminate].
    apply (IH fuel y H). lia.
Qed.

End WhileFacts.

(** ** The inner loop of [split_video] *)
Section InnerLoop.

Context {Frame : Type}.
Implicit Types (st : list (option Frame)) (v : Video Frame).

Lemma read_upto_length n st : (length (read_upto n st).1 <= n)%nat.
Proof.
  revert st. induction n as [|k IH]; intros [|[f|] r]; simpl; try lia.
  specialize (IH r). destruct (read_upto k r). simpl in *. lia.
Qed.

Lemma read_upto_readable n (frames : list Frame) st :
  (n <= length frames)%nat ->
  read_upto n ((Some <$> frames) ++ st)
  = (take n frames, (Some <$> drop n frames) ++ st).
Proof.
  revert frames. induction n as [|k IH]; intros frames Hn.
  - destruct frames; reflexivity.
  - destruct frames as [|f frames]; simpl in Hn; [lia|].
    simpl. rewrite IH by lia. reflexivity.
Qed.

Lemma inner_body_read v (f : Frame) st (w : list Frame) fw fi :
  inner_body {| in_cap := {| cap_video := v; cap_stream := Some f :: st |};
                in_writer := w; frames_written := fw; in_frame_idx := fi |}
  = Next {| in_cap := {| cap_video := v; cap_stream := st |};
            in_writer := w ++ [f]; frames_written := fw + 1;
            in_frame_idx := fi + 1 |}.
Proof. reflexivity. Qed.

Lemma inner_body_failed v st (w : list Frame) fw fi :
  inner_body {| in_cap := {| cap_video := v; cap_stream := None :: st |};
                in_writer := w; frames_written := fw; in_frame_idx := fi |}
  = Break {| in_cap := {| cap_video := v; cap_stream := st |};
             in_writer := w; frames_written := fw; in_frame_idx := fi |}.
Proof. reflexivity. Qed.

Lemma inner_body_exhausted v (w : list Frame) fw fi :
  inner_body {| in_cap := {| cap_video := v; cap_stream := [] |};
                in_writer := w; frames_written := fw; in_frame_idx := fi |}
  = Break {| in_cap := {| cap_video := v; cap_stream := [] |};
             in_writer := w; frames_written := fw; in_frame_idx := fi |}.
Proof. reflexivity. Qed.

(** The inner loop reads [min (clip_frames - frames_written)
    (total_frames - frame_idx)] times at most and stops at the first failed
    read; that many passes and one more test are enough fuel. *)
Lemma inner_while_spec (clip_frames total_frames : Z) (n : nat) :
  forall fuel v st (w : list Frame) fw fi,
    n = Z.to_nat (Z.min (clip_frames - fw) (total_frames - fi)) ->
    (n < fuel)%nat ->
    while (inner_cond clip_frames total_frames) inner_body fuel
      {| in_cap := {| cap_video := v; cap_stream := st |};
         in_writer := w; frames_written := fw; in_frame_idx := fi |}
    = Some
      {| in_cap := {| cap_video := v; cap_stream := (read_upto n st).2 |};
         in_writer := w ++ (read_upto n st).1;
         frames_written := fw + Z.of_nat (length (read_upto n st).1);
         in_frame_idx := fi + Z.of_nat (length (read_upto n st).1) |}.
Proof.
  induction n as [|k IH]; intros fuel v st w fw fi Hn Hfuel.
  - destruct fuel as [|fuel]; [lia|]. simpl.
    assert (inner_cond clip_frames total_frames
              {| in_cap := {| cap_video := v; cap_stream := st |};
                 in_writer := w; frames_written := fw; in_frame_idx := fi |}
            = false) as ->.
    { unfold inner_cond; simpl. apply andb_false_iff.
      rewrite !Z.ltb_ge. lia. }
    destruct st as [|[f|] r]; simpl; rewrite app_nil_r, !Z.add_0_r; reflexivity.
  - destruct fuel as [|fuel]; [lia|]. simpl.
    assert (inner_cond clip_frames total_frames
              {| in_cap := {| cap_video := v; cap_stream := st |};
                 in_writer := w; frames_written := fw; in_frame_idx := fi |}
            = true) as ->.
    { unfold inner_cond; simpl. apply andb_true_iff.
      rewrite !Z.ltb_lt. lia. }
    destruct st as [|[f|] r].
    + rewrite inner_body_exhausted. simpl.
      rewrite app_nil_r, !Z.add_0_r. reflexivity.
    + rewrite inner_body_read.
      rewrite (IH fuel v r (w ++ [f]) (fw + 1) (fi + 1)) by lia.
      simpl. destruct (read_upto k r) as [got r'] eqn:E. simpl.
      rewrite <- app_assoc. simpl.
      do 2 f_equal; lia.
    + rewrite inner_body_failed. simpl.
      rewrite app_nil_r, !Z.add_0_r. reflexivity.
Qed.

(** The inner loop always reaches its exit within the fuel [inner_loop]
    gives it. *)
Lemma inner_loop_exits (clip_frames total_frames : Z) (s : Inner Frame) :
  while (inner_cond clip_frames total_frames) inner_body
        (S (Z.to_nat (clip_frames - frames_written s))) s
  = Some (inner_loop clip_frames total_frames s).
Proof.
  unfold inner_loop. destruct s as [[v st] w fw fi]. cbn [frames_written].
  rewrite (inner_while_spec clip_frames total_frames _ _ v st w fw
             (in_frame_idx {| in_cap := {| cap_video := v; cap_stream := st |};
                              in_writer := w; frames_written := fw;
                              in_frame_idx := fi |}) eq_refl) by (cbn; lia).
  reflexivity.
Qed.

Lemma inner_loop_spec (clip_frames total_frames : Z) v st (w : list Frame) fw fi :
  let n := Z.to_nat (Z.min (clip_frames - fw) (total_frames - fi)) in
  inner_loop clip_frames total_frames
    {| in_cap := {| cap_video := v; cap_stream := st |};
       in_writer := w; frames_written := fw; in_frame_idx := fi |}
  = {| in_cap := {| cap_video := v; cap_stream := (read_upto n st).2 |};
       in_writer := w ++ (read_upto n st).1;
       frames_written := fw + Z.of_nat (length (read_upto n st).1);
       in_frame_idx := fi + Z.of_nat (length (read_upto n st).1) |}.
Proof.
  intros n. unfold inner_loop. cbn [frames_written].
  rewrite (inner_while_spec clip_frames total_frames n _ v st w fw fi eq_refl)
    by (subst n; lia).
  reflexivity.
Qed.

End InnerLoop.

(** ** The outer loop of [split_video] *)
Section OuterLoop.

Context {Frame : Type}.
Implicit Types (st : list (option Frame)) (v : Video Frame)
  (e : list (Clip Frame)).

Variables (out_dir video_name : string) (clip_frames total_frames : Z).

Let body := outer_body (Frame:=Frame) out_dir video_name clip_frames total_frames.
Let cond := outer_cond (Frame:=Frame) total_frames.

(** One pass of the outer loop writes one clip: the frames of at most
    [min clip_frames (total_frames - frame_idx)] reads. *)
Lemma outer_body_spec v st ci fi e :
  let n := Z.to_nat (Z.min clip_frames (total_frames - fi)) in
  body {| cap := {| cap_video := v; cap_stream := st |};
          clip_idx := ci; frame_idx := fi; emitted := e |}
  = Next {| cap := {| cap_video := v; cap_stream := (read_upto n st).2 |};
            clip_idx := ci + 1;
            frame_idx := fi + Z.of_nat (length (read_upto n st).1);
            emitted := e ++ [{| c_index := ci; c_start := fi;
                                c_path := clip_path out_dir video_name ci;
                                c_frames := (read_upto n st).1 |}] |}.
Proof.
  intros n. unfold body, outer_body. cbn [cap clip_idx frame_idx emitted].
  pose proof (inner_loop_spec clip_frames total_frames v st [] 0 fi) as H.
  cbn zeta in H. rewrite Z.sub_0_r in H. fold n in H. rewrite H.
  cbn [in_cap in_writer in_frame_idx]. rewrite app_nil_l. reflexivity.
Qed.

Lemma frames_total_snoc e (c : Clip Frame) :
  frames_total (e ++ [c]) = frames_total e + Z.of_nat (length (c_frames c)).
Proof.
  unfold frames_total. induction e as [|x e IH]; simpl; [lia|].
  rewrite IH. lia.
Qed.

Lemma contiguous_from_snoc idx start e (c : Clip Frame) :
  contiguous_from idx start e ->
  c_index c = idx + Z.of_nat (length e) ->
  c_start c = start + frames_total e ->
  contiguous_from idx start (e ++ [c]).
Proof.
  revert idx start. induction e as [|x e IH]; intros idx start He Hi Hs; simpl in *.
  - unfold frames_total in Hs. simpl in Hs. repeat split; lia.
  - destruct He as (Hx1 & Hx2 & He). repeat split; [exact Hx1 | exact Hx2 |].
    apply IH; [exact He | lia |].
    unfold frames_total in *. simpl in Hs. lia.
Qed.

Lemma contiguous_from_lookup idx start e (i : nat) (c : Clip Frame) :
  contiguous_from idx start e -> e !! i = Some c ->
  c_index c = idx + Z.of_nat i /\ c_start c = start + frames_total (take i e).
Proof.
  revert idx start i. induction e as [|x e IH]; intros idx start i He Hl; [discriminate|].
  destruct He as (Hx1 & Hx2 & He). destruct i as [|i]; simpl in Hl.
  - inversion Hl; subst. unfold frames_total; simpl. lia.
  - destruct (IH _ _ _ He Hl) as [H1 H2]. split; [lia|].
    rewrite H2. unfold frames_total; simpl. lia.
Qed.

Lemma read_upto_consumed n st :
  exists pre, st = pre ++ (read_upto n st).2 /\ (read_upto n st).1 = omap id pre.
Proof.
  revert st. induction n as [|k IH]; intros st.
  - exists []. destruct st; auto.
  - destruct st as [|[f|] r]; simpl.
    + exists []. auto.
    + destruct (IH r) as (pre & H1 & H2).
      destruct (read_upto k r) as [got r'] eqn:E. simpl in *.
      exists (Some f :: pre). simpl. split; [congruence|]. rewrite H2. reflexivity.
    + exists [None]. auto.
Qed.

Lemma segment_inv_init (c : Capture Frame) :
  segment_inv total_frames (cap_stream c) (outer_init c).
Proof.
  unfold segment_inv, outer_init; simpl. repeat split; try lia.
  exists []. auto.
Qed.

Lemma segment_inv_step stream0 (s : Outer Frame) :
  segment_inv total_frames stream0 s -> cond s = true ->
  match body s with
  | Next y => segment_inv total_frames stream0 y
  | Break y => segment_inv total_frames stream0 y /\ cond y = false
  end.
Proof.
  intros (Hci & Hcont & Hfi & Hle & consumed & Hst & Hfr) Hc.
  destruct s as [[v st] ci fi e].
  cbn [cap clip_idx frame_idx emitted cap_stream] in Hci, Hcont, Hfi, Hle, Hst, Hfr.
  unfold cond, outer_cond in Hc. cbn [frame_idx] in Hc. apply Z.ltb_lt in Hc.
  rewrite outer_body_spec. cbn zeta.
  set (n := Z.to_nat (Z.min clip_frames (total_frames - fi))).
  pose proof (read_upto_length n st) as Hlen.
  destruct (read_upto_consumed n st) as (pre & Hpre & Hgot).
  unfold segment_inv; simpl.
  rewrite length_app, frames_total_snoc. simpl.
  repeat split; try lia.
  - apply contiguous_from_snoc; simpl; [exact Hcont | lia | lia].
  - exists (consumed ++ pre). split.
    + rewrite <- app_assoc, <- Hpre. exact Hst.
    + rewrite fmap_app, concat_app. simpl. rewrite app_nil_r.
      rewrite omap_app, Hfr, Hgot. reflexivity.
Qed.

End OuterLoop.

(** ** Segmentation of one video *)
Section Segment.
Context {Frame : Type}.
Implicit Types (st : list (option Frame)) (v : Video Frame)
  (e : list (Clip Frame)).

Lemma frames_total_nonneg e : 0 <= frames_total e.
Proof.
  unfold frames_total. induction e as [|x e IH]; simpl; lia.
Qed.

(** C4 (as amended).  When the loop of [split_video] completes, the clips
    partition the frames read: their lengths sum to the reported total
    frame count when that count is not negative and to 0, with no clip
    written, when it is negative; clip [i] carries sequence index [i] and
    starts where the clips before it end, and the frames of the clips are,
    in order, the frames the reads delivered. *)
Theorem segment_partitions_frames (fuel : nat) (out_dir video_name : string)
    (clip_frames : Z) (c : Capture Frame) (s : Outer Frame) :
  segment fuel out_dir video_name clip_frames c = Some s ->
  frames_total (emitted s) = Z.max 0 (v_frame_count (cap_video c)) /\
  (v_frame_count (cap_video c) <= 0 -> emitted s = []) /\
  (forall (i : nat) clip, emitted s !! i = Some clip ->
     c_index clip = Z.of_nat i /\
     c_start clip = frames_total (take i (emitted s))) /\
  clip_idx s = Z.of_nat (length (emitted s)) /\
  exists consumed,
    cap_stream c = consumed ++ cap_stream (cap s) /\
    concat (c_frames <$> emitted s) = omap id consumed.
Proof.
  intros Hrun.
  assert (Hnone : v_frame_count (cap_video c) <= 0 -> emitted s = []).
  { intros Hle. unfold segment in Hrun. destruct fuel as [|k]; [discriminate|].
    cbn [while] in Hrun. unfold outer_cond at 1 in Hrun.
    cbn [outer_init frame_idx] in Hrun.
    assert ((0 <? v_frame_count (cap_video c)) = false) as E
      by (apply Z.ltb_ge; exact Hle).
    rewrite E in Hrun. inversion Hrun; subst. reflexivity. }
  unfold segment in Hrun.
  apply (while_invariant _ _
           (segment_inv (v_frame_count (cap_video c)) (cap_stream c))) in Hrun.
  - destruct Hrun as [(Hci & Hcont & Hfi & Hle & Hcons) Hexit].
    unfold outer_cond in Hexit. apply Z.ltb_ge in Hexit.
    pose proof (frames_total_nonneg (emitted s)) as Hnn.
    split; [lia|]. split; [exact Hnone|]. split; [|split; [exact Hci | exact Hcons]].
    intros i clip H.
    destruct (contiguous_from_lookup 0 0 _ i clip Hcont H). split; lia.
  - intros x Hx Hc. apply segment_inv_step; assumption.
  - apply segment_inv_init.
Qed.

Lemma full_then_last_cons budget (c : Clip Frame) e :
  full_then_last budget e ->
  (e = [] -> 0 < Z.of_nat (length (c_frames c)) <= budget) ->
  (e <> [] -> Z.of_nat (length (c_frames c)) = budget) ->
  full_then_last budget (c :: e).
Proof.
  intros He H1 H2. simpl. split; [|exact He].
  destruct e; [apply H1; reflexivity | apply H2; discriminate].
Qed.

Lemma full_then_last_lookup budget e (i : nat) (c : Clip Frame) :
  full_then_last budget e -> e !! i = Some c ->
  ((S i < length e)%nat -> Z.of_nat (length (c_frames c)) = budget) /\
  ((S i = length e)%nat -> 0 < Z.of_nat (length (c_frames c)) <= budget).
Proof.
  revert i. induction e as [|x e IH]; intros i He Hl; [discriminate|].
  destruct He as [Hx He]. destruct i as [|i]; cbn [lookup list_lookup] in Hl.
  - inversion Hl; subst. destruct e as [|y e]; cbn [length]; split; intros; try lia; exact Hx.
  - destruct (IH i He Hl) as [H1 H2]. cbn [length].
    split; intros; [apply H1 | apply H2]; lia.
Qed.

(** When the stream delivers the frames the metadata announce, the loop
    exits after at most one test per frame and one more. *)
Lemma segment_readable_run (out_dir video_name : string) (clip_frames total_frames : Z) (n : nat) :
  0 < clip_frames ->
  forall (frames : list Frame) st v ci fi e,
    (length frames <= n)%nat ->
    total_frames - fi = Z.of_nat (length frames) ->
    exists s new,
      while (outer_cond total_frames)
            (outer_body out_dir video_name clip_frames total_frames) (S n)
            {| cap := {| cap_video := v; cap_stream := (Some <$> frames) ++ st |};
               clip_idx := ci; frame_idx := fi; emitted := e |} = Some s /\
      emitted s = e ++ new /\
      full_then_last clip_frames new /\
      (new = [] <-> frames = []).
Proof.
  intros Hpos. induction n as [|k IH]; intros frames st v ci fi e Hn Hrem.
  - destruct frames; [|simpl in Hn; lia].
    eexists _, []. simpl. unfold outer_cond; simpl.
    assert ((fi <? total_frames) = false) as -> by (apply Z.ltb_ge; simpl in Hrem; lia).
    rewrite app_nil_r. repeat split; auto.
  - destruct (decide (frames = [])) as [->|Hne].
    + eexists _, []. simpl. unfold outer_cond; simpl.
      assert ((fi <? total_frames) = false) as -> by (apply Z.ltb_ge; simpl in Hrem; lia).
      rewrite app_nil_r. repeat split; auto.
    + assert (0 < length frames)%nat as Hlen by (destruct frames; [congruence | simpl; lia]).
      change (while ?c ?b (S (S k)) ?s) with
        (if c s then match b s with Next s' => while c b (S k) s' | Break s' => Some s' end else Some s).
      unfold outer_cond at 1. cbn [frame_idx].
      assert ((fi <? total_frames) = true) as -> by (apply Z.ltb_lt; lia).
      rewrite outer_body_spec. cbn zeta.
      set (m := Z.to_nat (Z.min clip_frames (total_frames - fi))).
      assert (m <= length frames)%nat as Hm by (subst m; lia).
      assert (0 < m)%nat as Hm0 by (subst m; lia).
      rewrite (read_upto_readable m frames st Hm). cbn [fst snd].
      rewrite length_take, Nat.min_l by lia.
      destruct (IH (drop m frames) st v (ci + 1) (fi + Z.of_nat m)
                  (e ++ [{| c_index := ci; c_start := fi;
                            c_path := clip_path out_dir video_name ci;
                            c_frames := take m frames |}])) as (s & new & Hrun & Hem & Hfull & Hnil).
      { rewrite length_drop. lia. }
      { rewrite length_drop. lia. }
      exists s, ({| c_index := ci; c_start := fi;
                    c_path := clip_path out_dir video_name ci;
                    c_frames := take m frames |} :: new).
      split; [exact Hrun|]. split; [rewrite Hem, <- app_assoc; reflexivity|].
      split; [|split; [discriminate | congruence]].
      apply full_then_last_cons; [exact Hfull | |]; cbn [c_frames];
        rewrite length_take, Nat.min_l by lia.
      * intros _. subst m. lia.
      * intros Hnew. assert (drop m frames <> []) as Hd by (intros Hd; apply Hnew, Hnil, Hd).
        assert (m < length frames)%nat.
        { destruct (decide (m < length frames)%nat); [assumption|].
          exfalso. apply Hd. apply drop_ge. lia. }
        subst m. lia.
Qed.
End Segment.

(** ** [split_video] *)
Section SplitVideo.
Context {Frame Vec : Type}.
Implicit Types (v : Video Frame) (w : World Frame Vec).

(** The world [split_video] returns when its loop ends in state [s]. *)
Lemma split_video_returns fuel file_path out_dir clip_duration w v clip_frames s :
  fs w !! file_path = Some (FVideo v) ->
  clip_frames_of v clip_duration = Some clip_frames ->
  segment fuel out_dir (base_name_of file_path) clip_frames (open_capture v) = Some s ->
  split_video fuel file_path out_dir clip_duration w
  = Returned
      {| fs := write_clips v (fs w) (emitted s);
         trace := trace w ++
           [Print_processing (base_name_of file_path) (v_frame_count v) (v_fps v);
            Print_done (base_name_of file_path) (clip_idx s)] |}.
Proof.
  intros Hf Hb Hs. unfold split_video, VideoCapture. rewrite Hf.
  cbn [cap_video open_capture]. rewrite Hb, Hs.
  unfold emit. cbn [fs trace]. rewrite <- app_assoc. reflexivity.
Qed.

(** C1 (as amended).  For a video that [split_video] opens, the frame budget is
    [int(fps * clip_duration)], the product truncated toward zero.  When
    that budget is positive and the stream delivers the reported number of
    frames, [split_video] returns, every clip but the last holds exactly
    that many frames, and the last holds at least one and at most that
    many. *)
Theorem split_video_clip_lengths file_path out_dir clip_duration w v
    (budget : Z) (frames : list Frame) (rest : list (option Frame)) :
  fs w !! file_path = Some (FVideo v) ->
  v_stream v = (Some <$> frames) ++ rest ->
  v_frame_count v = Z.of_nat (length frames) ->
  clip_frames_of v clip_duration = Some budget ->
  0 < budget ->
  exists fuel s w',
    segment fuel out_dir (base_name_of file_path) budget (open_capture v) = Some s /\
    split_video fuel file_path out_dir clip_duration w = Returned w' /\
    fs w' = write_clips v (fs w) (emitted s) /\
    forall (i : nat) clip, emitted s !! i = Some clip ->
      ((S i < length (emitted s))%nat ->
         Z.of_nat (length (c_frames clip)) = budget) /\
      ((S i = length (emitted s))%nat ->
         0 < Z.of_nat (length (c_frames clip)) <= budget).
Proof.
  intros Hf Hst Hcount Hb Hpos.
  destruct (segment_readable_run out_dir (base_name_of file_path) budget
              (v_frame_count v) (length frames) Hpos frames rest v 0 0 [])
    as (s & new & Hrun & Hem & Hfull & _); [lia | lia |].
  exists (S (length frames)), s. eexists. split; [|split; [|split]].
  - unfold segment, outer_init, open_capture. cbn [cap_video]. rewrite Hst. exact Hrun.
  - apply (split_video_returns _ _ _ _ _ v budget s Hf Hb).
    unfold segment, outer_init, open_capture. cbn [cap_video]. rewrite Hst. exact Hrun.
  - reflexivity.
  - intros i clip Hl. rewrite Hem in *. simpl in *.
    apply (full_then_last_lookup budget new i clip Hfull Hl).
Qed.

(** A pass of the outer loop that gets no frame leaves [frame_idx] where
    it was; when the budget is not positive every pass is such a pass. *)
Lemma segment_no_budget_never_exits out_dir video_name clip_frames (c : Capture Frame) :
  clip_frames <= 0 -> 0 < v_frame_count (cap_video c) ->
  (forall fuel, segment fuel out_dir video_name clip_frames c = None) /\
  (forall n, exists s, segment_after n out_dir video_name clip_frames c = Some s /\
                       frame_idx s = 0).
Proof.
  intros Hb Htot.
  set (I := fun s : Outer Frame => frame_idx s = 0).
  assert (Hstep : forall x, I x ->
            outer_cond (v_frame_count (cap_video c)) x = true /\
            exists y, outer_body out_dir video_name clip_frames
                        (v_frame_count (cap_video c)) x = Next y /\ I y).
  { intros [[v st] ci fi e] Hx. unfold I in Hx. cbn [frame_idx] in Hx. subst fi.
    split; [unfold outer_cond; cbn [frame_idx]; apply Z.ltb_lt; lia|].
    rewrite outer_body_spec. cbn zeta. eexists; split; [reflexivity|].
    unfold I. cbn [frame_idx].
    replace (Z.to_nat (Z.min clip_frames (v_frame_count (cap_video c) - 0))) with O by lia.
    destruct st; reflexivity. }
  split.
  - intros fuel. apply (while_never_exits _ _ I Hstep). reflexivity.
  - intros n. apply (after_never_exits _ _ I Hstep). reflexivity.
Qed.

(** Once the stream is exhausted short of the reported frame count, the
    loop cannot exit any more. *)
Lemma segment_exhausted_never_exits out_dir video_name clip_frames total_frames
    (s : Outer Frame) :
  cap_stream (cap s) = [] -> frame_idx s < total_frames ->
  forall fuel,
    while (outer_cond total_frames)
          (outer_body out_dir video_name clip_frames total_frames) fuel s = None.
Proof.
  intros Hst Hfi fuel.
  set (I := fun x : Outer Frame => cap_stream (cap x) = [] /\ frame_idx x < total_frames).
  apply (while_never_exits _ _ I); [|split; assumption].
  intros [[v st] ci fi e] [Hx1 Hx2]. cbn [cap cap_stream frame_idx] in Hx1, Hx2. subst st.
  split; [unfold outer_cond; cbn [frame_idx]; apply Z.ltb_lt; lia|].
  rewrite outer_body_spec. cbn zeta. eexists; split; [reflexivity|].
  unfold I. cbn [cap cap_stream frame_idx].
  destruct (Z.to_nat _); simpl; split; auto; lia.
Qed.
End SplitVideo.

Lemma split_video_clip_lengths_witness :
  let path := "video_data/converted_videos/a.mp4" in
  let w : World nat (list Z) := world_with path video_307 in
  (fs w !! path = Some (FVideo video_307) /\
   v_stream video_307 = (Some <$> numbered 307) ++ [] /\
   v_frame_count video_307 = Z.of_nat (length (numbered 307)) /\
   clip_frames_of video_307 CLIP_DURATION = Some 120 /\
   0 < 120) /\
  exists fuel s w',
    segment fuel OUTPUT_DIR (base_name_of path) 120 (open_capture video_307) = Some s /\
    split_video fuel path OUTPUT_DIR CLIP_DURATION w = Returned w' /\
    fs w' = write_clips video_307 (fs w) (emitted s) /\
    forall (i : nat) clip, emitted s !! i = Some clip ->
      ((S i < length (emitted s))%nat ->
         Z.of_nat (length (c_frames clip)) = 120) /\
      ((S i = length (emitted s))%nat ->
         0 < Z.of_nat (length (c_frames clip)) <= 120).
Proof.
  intros path w.
  assert (H1 : fs w !! path = Some (FVideo video_307)) by reflexivity.
  assert (H2 : v_stream video_307 = (Some <$> numbered 307) ++ [])
    by (vm_compute; reflexivity).
  assert (H3 : v_frame_count video_307 = Z.of_nat (length (numbered 307)))
    by reflexivity.
  assert (H4 : clip_frames_of video_307 CLIP_DURATION = Some 120)
    by (vm_compute; reflexivity).
  assert (H5 : 0 < 120) by lia.
  split; [repeat split; assumption|].
  exact (split_video_clip_lengths path OUTPUT_DIR CLIP_DURATION w video_307 120
           (numbered 307) [] H1 H2 H3 H4 H5).
Defined.

(** The frame budget of the code against [round(fps * clip_duration)] on
    Scenario B: 119 frames per clip, where rounding gives 120. *)
Lemma split_video_budget_is_not_rounded :
  clip_frames_of video_443 CLIP_DURATION = Some 119 /\
  spec_clip_frame_count video_443 CLIP_DURATION = Some 120 /\
  clip_frames_of video_443 CLIP_DURATION <> spec_clip_frame_count video_443 CLIP_DURATION /\
  (clip_lengths ∘ emitted) <$> segment 5 OUTPUT_DIR "b" 119 (open_capture video_443)
    = Some [119; 119; 119; 86]%nat.
Proof.
  split; [vm_compute; reflexivity|].
  split; [vm_compute; reflexivity|].
  split; [vm_compute; discriminate|].
  vm_compute; reflexivity.
Qed.

(** C2.  On a video that reports a frame rate of zero (and at least one
    frame) the budget is 0, [split_video] does not return whatever the fuel,
    and after any number of passes the loop is still at frame 0: there is
    no abort and no diagnostic. *)
Theorem split_video_zero_fps_never_returns :
  clip_frames_of zero_fps_video CLIP_DURATION = Some 0 /\
  (forall fuel,
     split_video fuel "video_data/converted_videos/v.mp4" OUTPUT_DIR CLIP_DURATION
       (world_with "video_data/converted_videos/v.mp4" zero_fps_video) = OutOfFuel) /\
  (forall n, exists s,
     segment_after n OUTPUT_DIR "v" 0 (open_capture zero_fps_video) = Some s /\
     frame_idx s = 0).
Proof.
  split; [reflexivity|].
  destruct (segment_no_budget_never_exits (Frame:=nat) OUTPUT_DIR "v" 0
              (open_capture zero_fps_video)) as [Hw Ha]; [lia | simpl; lia |].
  split; [|exact Ha].
  intros fuel. unfold split_video.
  change (VideoCapture _ _) with (Some (open_capture zero_fps_video)).
  cbn match. cbn [cap_video open_capture].
  change (clip_frames_of zero_fps_video CLIP_DURATION) with (Some 0).
  change (base_name_of "video_data/converted_videos/v.mp4") with "v".
  cbn match. rewrite Hw. reflexivity.
Qed.

(** C3.  On a stream that ends before the reported frame count (8 frames
    announced, 6 delivered, budget 5) the third and fourth clip files are
    written with no frame in them, and [split_video] never returns. *)
Theorem split_video_truncated_stream_writes_empty_clips :
  (fun s => (c_path <$> emitted s, clip_lengths (emitted s)))
    <$> segment_after 4 OUTPUT_DIR "v" 5 (open_capture truncated_video)
  = Some (["video_data/scenes/v_clip_000.mp4"; "video_data/scenes/v_clip_001.mp4";
           "video_data/scenes/v_clip_002.mp4"; "video_data/scenes/v_clip_003.mp4"],
          [5; 1; 0; 0]%nat) /\
  (forall fuel,
     split_video fuel "video_data/converted_videos/v.mp4" OUTPUT_DIR CLIP_DURATION
       (world_with "video_data/converted_videos/v.mp4" truncated_video) = OutOfFuel).
Proof.
  split; [vm_compute; reflexivity|].
  assert (exists s2, segment_after 2 OUTPUT_DIR "v" 5 (open_capture truncated_video) = Some s2 /\
                     cap_stream (cap s2) = [] /\ frame_idx s2 = 6) as (s2 & H2 & Hst & Hfi).
  { eexists. split; [vm_compute; reflexivity|]. split; reflexivity. }
  assert (Hseg : forall fuel, segment fuel OUTPUT_DIR "v" 5 (open_capture truncated_video) = None).
  { intros fuel. unfold segment, segment_after in *.
    destruct (le_lt_dec fuel 2) as [Hle|Hgt].
    - eapply after_while_running; eauto.
    - replace fuel with (2 + (fuel - 2))%nat by lia.
      erewrite after_while by exact H2.
      apply segment_exhausted_never_exits; [exact Hst|].
      rewrite Hfi. simpl. lia. }
  intros fuel. unfold split_video.
  change (VideoCapture _ _) with (Some (open_capture truncated_video)).
  cbn match. cbn [cap_video open_capture].
  change (clip_frames_of truncated_video CLIP_DURATION) with (Some 5).
  change (base_name_of "video_data/converted_videos/v.mp4") with "v".
  cbn match. rewrite Hseg. reflexivity.
Qed.

Lemma segment_partitions_frames_witness :
  exists s,
    segment 4 OUTPUT_DIR "a" 120 (open_capture video_307) = Some s /\
    (frames_total (emitted s)
     = Z.max 0 (v_frame_count (cap_video (open_capture video_307))) /\
     (v_frame_count (cap_video (open_capture video_307)) <= 0 -> emitted s = []) /\
     (forall (i : nat) clip, emitted s !! i = Some clip ->
        c_index clip = Z.of_nat i /\
        c_start clip = frames_total (take i (emitted s))) /\
     clip_idx s = Z.of_nat (length (emitted s)) /\
     exists consumed,
       cap_stream (open_capture video_307) = consumed ++ cap_stream (cap s) /\
       concat (c_frames <$> emitted s) = omap id consumed) /\
    clip_lengths (emitted s) = [120; 120; 67]%nat.
Proof.
  destruct (segment 4 OUTPUT_DIR "a" 120 (open_capture video_307)) as [s|] eqn:E;
    [|vm_compute in E; discriminate].
  exists s. split; [reflexivity|].
  split; [exact (segment_partitions_frames 4 OUTPUT_DIR "a" 120
                   (open_capture video_307) s E)|].
  vm_compute in E. inversion E. vm_compute. reflexivity.
Defined.

(** The claim as stated fails on a video whose reported frame count is
    negative: the loop completes at once, no clip is written, and the sum
    of the clip lengths, 0, is not the reported count. *)
Lemma segment_negative_count_sums_to_zero :
  v_frame_count negative_count_video = -1 /\
  segment 1 OUTPUT_DIR "p" 125 (open_capture negative_count_video)
  = Some (outer_init (open_capture negative_count_video)) /\
  emitted (outer_init (open_capture negative_count_video)) = [] /\
  frames_total (emitted (outer_init (open_capture negative_count_video)))
  <> v_frame_count negative_count_video.
Proof.
  split; [reflexivity|]. split; [reflexivity|]. split; [reflexivity|].
  vm_compute. discriminate.
Qed.

(** ** Re-runs *)
Section Rerun.
Context {Frame Vec : Type}.
Implicit Types (v : Video Frame) (w : World Frame Vec)
  (m : gmap string (File Frame Vec)).

Variable ffmpeg :
  string -> string -> gmap string (File Frame Vec) -> Z * gmap string (File Frame Vec).

Lemma write_clips_union v m (clips : list (Clip Frame)) :
  write_clips v m clips = write_clips v ∅ clips ∪ m.
Proof.
  revert m. induction clips as [|c clips IH]; intros m; simpl.
  - rewrite (left_id_L ∅ (∪)). reflexivity.
  - rewrite IH. rewrite (IH (<[_:=_]> ∅)).
    rewrite insert_empty, <- (assoc_L (∪)), <- insert_union_singleton_l.
    reflexivity.
Qed.

(** Writing the same clip files a second time changes nothing. *)
Lemma write_clips_twice v m (clips : list (Clip Frame)) :
  write_clips v (write_clips v m clips) clips = write_clips v m clips.
Proof.
  rewrite (write_clips_union v (write_clips v m clips)), (write_clips_union v m).
  rewrite (assoc_L (∪)), (idemp_L (∪)). reflexivity.
Qed.

(** C5.  Re-running against existing outputs changes no file and raises
    nothing: [convert_to_mp4] on a source whose target already exists
    returns the target path and leaves the world as it is (FFmpeg is not
    run); [split_video] run again on the world it returned, the input file
    unchanged, returns again and leaves the file system as it is. *)
Theorem rerun_is_noop :
  (forall file_path out_dir w,
     path_exists (mp4_output_path file_path out_dir) w = true ->
     convert_to_mp4 ffmpeg file_path out_dir w
     = (Some (mp4_output_path file_path out_dir), w)) /\
  (forall fuel file_path out_dir clip_duration w w1,
     split_video fuel file_path out_dir clip_duration w = Returned w1 ->
     fs w1 !! file_path = fs w !! file_path ->
     exists w2,
       split_video fuel file_path out_dir clip_duration w1 = Returned w2 /\
       fs w2 = fs w1).
Proof.
  split.
  - intros file_path out_dir w Hex. unfold convert_to_mp4. rewrite Hex. reflexivity.
  - intros fuel file_path out_dir clip_duration w w1 Hrun Hin.
    unfold split_video in Hrun |- *. unfold VideoCapture in Hrun |- *.
    destruct (fs w !! file_path) as [[v| |]|] eqn:Hf; rewrite Hin;
      try (inversion Hrun; subst; eexists; split; reflexivity).
    cbn [cap_video open_capture] in *.
    destruct (clip_frames_of v clip_duration) as [clip_frames|]; [|discriminate].
    match type of Hrun with
    | context [segment ?a ?b ?c ?d ?e] =>
        destruct (segment a b c d e) as [s|]; [|discriminate]
    end.
    inversion Hrun; subst. eexists; split; [reflexivity|].
    cbn [fs emit]. apply write_clips_twice.
Qed.
End Rerun.

Lemma rerun_is_noop_witness :
  let src := "video_data/raw_videos/a.mov" in
  let mp4 := "video_data/converted_videos/a.mp4" in
  let w0 : World nat (list Z) := world_with src small_video in
  let w1 := (convert_to_mp4 ffmpeg_copy src TEMP_DIR w0).2 in
  (path_exists (mp4_output_path src TEMP_DIR) w1 = true /\
   convert_to_mp4 ffmpeg_copy src TEMP_DIR w1 = (Some mp4, w1)) /\
  exists w2,
    (split_video 3 mp4 OUTPUT_DIR CLIP_DURATION w1 = Returned w2 /\
     fs w2 !! mp4 = fs w1 !! mp4) /\
    exists w3,
      split_video 3 mp4 OUTPUT_DIR CLIP_DURATION w2 = Returned w3 /\
      fs w3 = fs w2.
Proof.
  intros src mp4 w0 w1.
  destruct (rerun_is_noop ffmpeg_copy) as [Hconvert Hsplit].
  assert (Hex : path_exists (mp4_output_path src TEMP_DIR) w1 = true)
    by (vm_compute; reflexivity).
  split; [split; [exact Hex | exact (Hconvert src TEMP_DIR w1 Hex)]|].
  destruct (split_video 3 mp4 OUTPUT_DIR CLIP_DURATION w1) as [w2| |] eqn:E;
    [|vm_compute in E; discriminate..].
  exists w2.
  assert (Hin : fs w2 !! mp4 = fs w1 !! mp4)
    by (vm_compute in E; inversion E; vm_compute; reflexivity).
  split; [split; [reflexivity | exact Hin]|].
  exact (Hsplit 3%nat mp4 OUTPUT_DIR CLIP_DURATION w1 w2 E Hin).
Defined.

(** ** Failed conversions *)
Section Failure.
Context {Frame Vec : Type}.
Implicit Types (w : World Frame Vec).

Variable ffmpeg :
  string -> string -> gmap string (File Frame Vec) -> Z * gmap string (File Frame Vec).

End Failure.


(** ** Output names *)
Section Paths.
Implicit Types (s a b : string) (c : ascii).

Lemma str_app_cons c a b : String c a +:+ b = String c (a +:+ b).
Proof. reflexivity. Qed.

Lemma str_app_nil b : "" +:+ b = b.
Proof. reflexivity. Qed.

Lemma str_app_assoc a b s : (a +:+ b) +:+ s = a +:+ (b +:+ s).
Proof. induction a as [|c a IH]; [reflexivity|]. rewrite !str_app_cons, IH. reflexivity. Qed.

Lemma str_drop_app a b : Py.str_drop (String.length a) (a +:+ b) = b.
Proof. induction a as [|c a IH]; [destruct b; reflexivity|]. exact IH. Qed.

Lemma str_take_app a b : Py.str_take (String.length a) (a +:+ b) = a.
Proof.
  induction a as [|c a IH]; [destruct b; reflexivity|].
  rewrite str_app_cons. cbn [String.length Py.str_take]. rewrite IH. reflexivity.
Qed.

Lemma rfind_from_app c a b i last :
  Py.rfind_from c (a +:+ b) i last
  = Py.rfind_from c b (i + Z.of_nat (String.length a)) (Py.rfind_from c a i last).
Proof.
  revert i last. induction a as [|x a IH]; intros i last.
  - rewrite str_app_nil. simpl. rewrite Z.add_0_r. reflexivity.
  - rewrite str_app_cons. cbn [Py.rfind_from String.length]. rewrite IH.
    f_equal. lia.
Qed.

Lemma rfind_from_absent c s i last :
  char_in c s = false -> Py.rfind_from c s i last = last.
Proof.
  revert i last. induction s as [|x s IH]; intros i last H; [reflexivity|].
  simpl in H. apply orb_false_iff in H as [Hx Hs]. simpl. rewrite Hx. auto.
Qed.

Lemma char_in_app c a b : char_in c (a +:+ b) = char_in c a || char_in c b.
Proof.
  induction a as [|x a IH]; [reflexivity|].
  rewrite str_app_cons. simpl. rewrite IH. apply orb_assoc.
Qed.

(** The last occurrence of [c] in [a ++ c ++ b] when [b] has none. *)
Lemma str_rfind_last c a b :
  char_in c b = false ->
  Py.str_rfind (a +:+ String c b) c = Z.of_nat (String.length a).
Proof.
  intros Hb. unfold Py.str_rfind. rewrite rfind_from_app. simpl.
  rewrite Ascii.eqb_refl. apply rfind_from_absent. exact Hb.
Qed.

Lemma str_rfind_absent c s : char_in c s = false -> Py.str_rfind s c = -1.
Proof. apply rfind_from_absent. Qed.

Lemma basename_dir_name dir name :
  char_in "/" name = false -> Py.basename (dir +:+ "/" +:+ name) = name.
Proof.
  intros H. unfold Py.basename.
  change (dir +:+ "/" +:+ name) with (dir +:+ String "/" name).
  rewrite str_rfind_last by exact H.
  replace (Z.to_nat (Z.of_nat (String.length dir) + 1))
    with (String.length (dir +:+ "/")).
  - rewrite <- (str_drop_app (dir +:+ "/") name) at 2.
    rewrite str_app_assoc. reflexivity.
  - induction dir as [|x d IH]; [reflexivity|].
    rewrite str_app_cons. cbn [String.length]. rewrite IH. lia.
Qed.

Lemma splitext_stem_ext stem ext :
  char_in "/" stem = false -> Py.all_dots stem = false ->
  char_in "/" ext = false -> char_in "." ext = false ->
  Py.splitext (stem +:+ "." +:+ ext) = (stem, "." +:+ ext).
Proof.
  intros Hs Hd He1 He2. unfold Py.splitext.
  rewrite (str_rfind_absent "/").
  2:{ rewrite char_in_app, Hs. change ("." +:+ ext) with (String "." ext).
      simpl. exact He1. }
  change (stem +:+ "." +:+ ext) with (stem +:+ String "." ext).
  rewrite str_rfind_last by exact He2.
  change (-1 + 1) with 0. change (Z.to_nat 0) with O.
  cbn [Py.str_drop].
  replace (Z.to_nat (Z.of_nat (String.length stem) - 0)) with (String.length stem) by lia.
  rewrite Nat2Z.id, str_take_app, str_drop_app, Hd.
  assert ((-1 <? Z.of_nat (String.length stem)) = true) as -> by (apply Z.ltb_lt; lia).
  reflexivity.
Qed.

Lemma base_name_of_dir_stem_ext dir stem ext :
  char_in "/" stem = false -> Py.all_dots stem = false ->
  char_in "/" ext = false -> char_in "." ext = false ->
  base_name_of (dir +:+ "/" +:+ stem +:+ "." +:+ ext) = stem.
Proof.
  intros Hs Hd He1 He2. unfold base_name_of.
  rewrite basename_dir_name.
  - rewrite splitext_stem_ext by assumption. reflexivity.
  - rewrite char_in_app, Hs. change ("." +:+ ext) with (String "." ext).
    simpl. exact He1.
Qed.

Lemma join_temp_dir name :
  Py.str_startswith name "/" = false ->
  Py.join TEMP_DIR name = TEMP_DIR +:+ "/" +:+ name.
Proof. intros H. unfold Py.join. rewrite H. reflexivity. Qed.

Lemma startswith_slash_stem stem s :
  char_in "/" stem = false -> Py.all_dots stem = false ->
  Py.str_startswith (stem +:+ s) "/" = false.
Proof.
  intros Hs Hd. destruct stem as [|c stem]; [discriminate|].
  simpl in Hs. apply orb_false_iff in Hs as [Hc _].
  unfold Py.str_startswith. rewrite str_app_cons. cbn [String.prefix].
  destruct (ascii_dec "/" c) as [<-|]; [|reflexivity].
  rewrite Ascii.eqb_refl in Hc. discriminate.
Qed.

(** C6 (as amended).  Two sources [dir/stem.ext1] and [dir/stem.ext2] with the
    same base name get the same output names: the source extension is
    stripped, so both are normalised to [stem.mp4] and both have their
    clips named [stem_clip_NNN.mp4], whatever the extensions. *)
Theorem same_base_name_same_outputs dir stem ext1 ext2 :
  char_in "/" stem = false -> Py.all_dots stem = false ->
  char_in "/" ext1 = false -> char_in "." ext1 = false ->
  char_in "/" ext2 = false -> char_in "." ext2 = false ->
  let src1 := dir +:+ "/" +:+ stem +:+ "." +:+ ext1 in
  let src2 := dir +:+ "/" +:+ stem +:+ "." +:+ ext2 in
  (forall out_dir,
     mp4_output_path src1 out_dir = Py.join out_dir (stem +:+ ".mp4") /\
     mp4_output_path src2 out_dir = Py.join out_dir (stem +:+ ".mp4")) /\
  (forall out_dir idx,
     clip_path out_dir (base_name_of (mp4_output_path src1 TEMP_DIR)) idx
     = clip_path out_dir stem idx /\
     clip_path out_dir (base_name_of (mp4_output_path src2 TEMP_DIR)) idx
     = clip_path out_dir stem idx) /\
  (forall idx,
     let clip1 := clip_path SCENE_DIR (base_name_of (mp4_output_path src1 TEMP_DIR)) idx in
     let clip2 := clip_path SCENE_DIR (base_name_of (mp4_output_path src2 TEMP_DIR)) idx in
     artifact_path (Py.basename clip1) = artifact_path (Py.basename clip2)).
Proof.
  intros Hs Hd H1 H1' H2 H2' src1 src2.
  assert (B1 : base_name_of src1 = stem) by (apply base_name_of_dir_stem_ext; assumption).
  assert (B2 : base_name_of src2 = stem) by (apply base_name_of_dir_stem_ext; assumption).
  assert (B : base_name_of (Py.join TEMP_DIR (stem +:+ ".mp4")) = stem).
  { rewrite join_temp_dir by (apply startswith_slash_stem; assumption).
    apply (base_name_of_dir_stem_ext TEMP_DIR stem "mp4"); auto. }
  split; [|split].
  - intros out_dir. unfold mp4_output_path. rewrite B1, B2. auto.
  - intros out_dir idx. unfold mp4_output_path. rewrite B1, B2, B. auto.
  - intros idx. cbv zeta. unfold mp4_output_path. rewrite B1, B2. reflexivity.
Qed.
End Paths.


Lemma same_base_name_same_outputs_witness :
  (char_in "/" "a" = false /\ Py.all_dots "a" = false /\
   char_in "/" "mov" = false /\ char_in "." "mov" = false /\
   char_in "/" "avi" = false /\ char_in "." "avi" = false) /\
  let src1 := INPUT_DIR +:+ "/" +:+ "a" +:+ "." +:+ "mov" in
  let src2 := INPUT_DIR +:+ "/" +:+ "a" +:+ "." +:+ "avi" in
  (forall out_dir,
     mp4_output_path src1 out_dir = Py.join out_dir ("a" +:+ ".mp4") /\
     mp4_output_path src2 out_dir = Py.join out_dir ("a" +:+ ".mp4")) /\
  (forall out_dir idx,
     clip_path out_dir (base_name_of (mp4_output_path src1 TEMP_DIR)) idx
     = clip_path out_dir "a" idx /\
     clip_path out_dir (base_name_of (mp4_output_path src2 TEMP_DIR)) idx
     = clip_path out_dir "a" idx) /\
  (forall idx,
     let clip1 := clip_path SCENE_DIR (base_name_of (mp4_output_path src1 TEMP_DIR)) idx in
     let clip2 := clip_path SCENE_DIR (base_name_of (mp4_output_path src2 TEMP_DIR)) idx in
     artifact_path (Py.basename clip1) = artifact_path (Py.basename clip2)).
Proof.
  split; [repeat split; reflexivity|].
  exact (same_base_name_same_outputs INPUT_DIR "a" "mov" "avi"
           eq_refl eq_refl eq_refl eq_refl eq_refl eq_refl).
Defined.

(** The claim as stated fails on [a.mov] and [a.avi]: distinct sources,
    one normalised file, one set of clip names. *)
Lemma same_base_name_collides :
  let src1 := Py.join INPUT_DIR "a.mov" in
  let src2 := Py.join INPUT_DIR "a.avi" in
  src1 <> src2 /\
  mp4_output_path src1 TEMP_DIR = "video_data/converted_videos/a.mp4" /\
  mp4_output_path src2 TEMP_DIR = "video_data/converted_videos/a.mp4" /\
  clip_path OUTPUT_DIR (base_name_of (mp4_output_path src1 TEMP_DIR)) 0
  = "video_data/scenes/a_clip_000.mp4" /\
  clip_path OUTPUT_DIR (base_name_of (mp4_output_path src2 TEMP_DIR)) 0
  = "video_data/scenes/a_clip_000.mp4" /\
  artifact_path "a_clip_000.mp4" = "embeddings/a_clip_000.npy".
Proof. vm_compute. repeat split; try reflexivity. discriminate. Qed.

(** ** Keyframe extraction *)
Section Keyframe.
Context {Frame Vec : Type}.
Implicit Types (v : Video Frame) (w : World Frame Vec).

Lemma extract_middle_frame_opened video_path w v :
  fs w !! video_path = Some (FVideo v) ->
  extract_middle_frame video_path w
  = (frame_at v (v_frame_count v / 2),
     {| fs := fs w;
        trace := trace w ++ Seek video_path (v_frame_count v / 2) ::
                   match frame_at v (v_frame_count v / 2) with
                   | Some _ => []
                   | None => [Print_failed_middle video_path]
                   end |}).
Proof.
  intros Hf. unfold extract_middle_frame, VideoCapture. rewrite Hf.
  unfold cap_read, cap_set_pos, frame_at, open_capture, emit. simpl.
  destruct (v_seek v (v_frame_count v / 2)) as [|[frame|] rest];
    simpl; rewrite <- ?app_assoc; reflexivity.
Qed.

Lemma extract_middle_frame_unopened video_path w :
  VideoCapture (fs w) video_path = None ->
  extract_middle_frame video_path w
  = (None, emit (Print_could_not_open video_path) w).
Proof. intros H. unfold extract_middle_frame. rewrite H. reflexivity. Qed.

(** C9.  On a clip that opens, [extract_middle_frame] seeks exactly once, to
    index [frame_count // 2] (the floor of half the frame count), and
    returns what the decoder delivers there; a second extraction from the
    same unmodified clip seeks to the same index and returns the same
    frame. *)
Theorem middle_frame_index video_path w v :
  fs w !! video_path = Some (FVideo v) ->
  let idx := v_frame_count v / 2 in
  let r := extract_middle_frame video_path w in
  2 * idx <= v_frame_count v < 2 * idx + 2 /\
  seeks r.2 = seeks w ++ [(video_path, idx)] /\
  r.1 = frame_at v idx /\
  fs r.2 = fs w /\
  seeks (extract_middle_frame video_path r.2).2
    = seeks w ++ [(video_path, idx); (video_path, idx)] /\
  (extract_middle_frame video_path r.2).1 = r.1.
Proof.
  intros Hf idx r.
  assert (Hr : r = extract_middle_frame video_path w) by reflexivity.
  rewrite (extract_middle_frame_opened _ _ _ Hf) in Hr. fold idx in Hr.
  assert (Hseek : seeks r.2 = seeks w ++ [(video_path, idx)]).
  { rewrite Hr. unfold seeks. cbn [snd trace]. rewrite omap_app.
    destruct (frame_at v idx); reflexivity. }
  assert (Hfs : fs r.2 = fs w) by (rewrite Hr; reflexivity).
  assert (Hf2 : fs r.2 !! video_path = Some (FVideo v)) by (rewrite Hfs; exact Hf).
  rewrite (extract_middle_frame_opened _ _ _ Hf2). fold idx.
  split; [subst idx; pose proof (Z.div_mod (v_frame_count v) 2);
          pose proof (Z.mod_pos_bound (v_frame_count v) 2); lia|].
  split; [exact Hseek|]. split; [rewrite Hr; reflexivity|].
  split; [exact Hfs|]. split; [|rewrite Hr; reflexivity].
  unfold seeks in *. cbn [snd trace]. rewrite omap_app, Hseek, <- app_assoc.
  destruct (frame_at v idx); reflexivity.
Qed.
End Keyframe.

Lemma middle_frame_index_witness :
  let path := "video_data/scenes/a_clip_000.mp4" in
  fs scene_world !! path = Some (FVideo small_video) /\
  let r := extract_middle_frame path scene_world in
  2 * 3 <= v_frame_count small_video < 2 * 3 + 2 /\
  seeks r.2 = seeks scene_world ++ [(path, 3)] /\
  r.1 = frame_at small_video 3 /\
  fs r.2 = fs scene_world /\
  seeks (extract_middle_frame path r.2).2
    = seeks scene_world ++ [(path, 3); (path, 3)] /\
  (extract_middle_frame path r.2).1 = r.1.
Proof.
  intros path.
  assert (H : fs scene_world !! path = Some (FVideo small_video)) by reflexivity.
  split; [exact H|].
  exact (middle_frame_index path scene_world small_video H).
Defined.

(** ** Embedding artifacts *)
Section Artifacts.
Context {Frame Vec : Type}.
Implicit Types (v : Video Frame) (w : World Frame Vec).
Variable encode : Frame -> Vec.

(** Extraction leaves the files and the record of saves as they are, and
    its result depends on the files only. *)
Lemma extract_middle_frame_files video_path w :
  fs (extract_middle_frame video_path w).2 = fs w /\
  saves (extract_middle_frame video_path w).2 = saves w.
Proof.
  unfold extract_middle_frame.
  destruct (VideoCapture (fs w) video_path) as [c|]; [|split; [reflexivity|]].
  - destruct (cap_read _) as [[frame|] c']; unfold saves, emit; cbn [snd fs trace];
      rewrite ?omap_app; cbn [omap list_omap]; rewrite ?app_nil_r; auto.
  - unfold saves, emit; cbn [snd fs trace]. rewrite omap_app. apply app_nil_r.
Qed.

Lemma extract_middle_frame_same_files video_path w w' :
  fs w = fs w' ->
  (extract_middle_frame video_path w).1 = (extract_middle_frame video_path w').1.
Proof.
  intros H. unfold extract_middle_frame. rewrite H.
  destruct (VideoCapture (fs w') video_path) as [c|]; [|reflexivity].
  destruct (cap_read _) as [[frame|] c']; reflexivity.
Qed.

(** What one pass of the scene loop does to the files and to the record
    of saves. *)
Lemma scene_body_spec scene_file w :
  match (extract_middle_frame (Py.join SCENE_DIR scene_file) w).1 with
  | Some frame =>
      fs (scene_body encode scene_file w)
      = <[artifact_path scene_file := FArray (encode frame)]> (fs w) /\
      saves (scene_body encode scene_file w) = saves w ++ [artifact_path scene_file]
  | None =>
      fs (scene_body encode scene_file w) = fs w /\
      saves (scene_body encode scene_file w) = saves w
  end.
Proof.
  destruct (extract_middle_frame_files (Py.join SCENE_DIR scene_file) w) as [Hfs Hsv].
  unfold scene_body, generate_clip_embedding.
  destruct (extract_middle_frame (Py.join SCENE_DIR scene_file) w) as [[frame|] w1];
    cbn [fst snd] in *.
  - unfold np_save, saves, artifact_path in *. cbn [fs trace].
    rewrite Hfs, omap_app, Hsv. split; reflexivity.
  - split; assumption.
Qed.

Lemma scene_body_same_files scene_file w w' :
  fs w = fs w' -> saves w = saves w' ->
  fs (scene_body encode scene_file w) = fs (scene_body encode scene_file w') /\
  saves (scene_body encode scene_file w) = saves (scene_body encode scene_file w').
Proof.
  intros Hfs Hsv.
  pose proof (scene_body_spec scene_file w) as H.
  pose proof (scene_body_spec scene_file w') as H'.
  rewrite (extract_middle_frame_same_files _ w w' Hfs) in H.
  destruct ((extract_middle_frame (Py.join SCENE_DIR scene_file) w').1);
    destruct H as [-> ->], H' as [-> ->]; rewrite Hfs, Hsv; auto.
Qed.

Lemma scene_loop_same_files files w w' :
  fs w = fs w' -> saves w = saves w' ->
  fs (scene_loop encode files w) = fs (scene_loop encode files w') /\
  saves (scene_loop encode files w) = saves (scene_loop encode files w').
Proof.
  revert w w'. induction files as [|f files IH]; intros w w' Hfs Hsv; [auto|].
  cbn [scene_loop foldl]. apply IH; apply scene_body_same_files; assumption.
Qed.

Lemma scene_loop_app files1 files2 w :
  scene_loop encode (files1 ++ files2) w
  = scene_loop encode files2 (scene_loop encode files1 w).
Proof. unfold scene_loop. apply foldl_app. Qed.

(** C7.  One pass of the scene loop calls [np.save] exactly when
    [extract_middle_frame] returned a frame: with a frame the artifact file
    of the clip is written with its embedding, without one the file system
    is left as it is.  An unreadable clip changes nothing for its siblings:
    the loop leaves the same files and the same saves as if the clip were
    not in the list. *)
Theorem artifact_iff_keyframe_readable :
  (forall scene_file w,
     saves (scene_body encode scene_file w)
     = saves w ++
       match (extract_middle_frame (Py.join SCENE_DIR scene_file) w).1 with
       | Some _ => [artifact_path scene_file]
       | None => []
       end) /\
  (forall scene_file w,
     (extract_middle_frame (Py.join SCENE_DIR scene_file) w).1 = None ->
     fs (scene_body encode scene_file w) = fs w) /\
  (forall scene_file w frame,
     (extract_middle_frame (Py.join SCENE_DIR scene_file) w).1 = Some frame ->
     fs (scene_body encode scene_file w)
     = <[artifact_path scene_file := FArray (encode frame)]> (fs w)) /\
  (forall before scene_file after w,
     (extract_middle_frame (Py.join SCENE_DIR scene_file)
        (scene_loop encode before w)).1 = None ->
     fs (scene_loop encode (before ++ scene_file :: after) w)
     = fs (scene_loop encode (before ++ after) w) /\
     saves (scene_loop encode (before ++ scene_file :: after) w)
     = saves (scene_loop encode (before ++ after) w)).
Proof.
  split; [|split; [|split]].
  - intros scene_file w. pose proof (scene_body_spec scene_file w) as H.
    destruct (extract_middle_frame _ w).1; destruct H as [_ ->];
      rewrite ?app_nil_r; reflexivity.
  - intros scene_file w Hn. pose proof (scene_body_spec scene_file w) as H.
    rewrite Hn in H. apply H.
  - intros scene_file w frame Hs. pose proof (scene_body_spec scene_file w) as H.
    rewrite Hs in H. apply H.
  - intros before scene_file after w Hn.
    rewrite !scene_loop_app. cbn [scene_loop foldl].
    fold (scene_loop encode after (scene_body encode scene_file (scene_loop encode before w))).
    fold (scene_loop encode after (scene_loop encode before w)).
    pose proof (scene_body_spec scene_file (scene_loop encode before w)) as H.
    rewrite Hn in H. destruct H as [Hfs Hsv].
    apply scene_loop_same_files; assumption.
Qed.
End Artifacts.

Lemma artifact_iff_keyframe_readable_witness :
  (extract_middle_frame (Py.join SCENE_DIR "bad.mp4")
     (scene_loop encode_number [] scene_world)).1 = None /\
  fs (scene_loop encode_number ([] ++ "bad.mp4" :: ["a_clip_000.mp4"]) scene_world)
  = fs (scene_loop encode_number ([] ++ ["a_clip_000.mp4"]) scene_world) /\
  saves (scene_loop encode_number ([] ++ "bad.mp4" :: ["a_clip_000.mp4"]) scene_world)
  = saves (scene_loop encode_number ([] ++ ["a_clip_000.mp4"]) scene_world).
Proof.
  assert (H : (extract_middle_frame (Py.join SCENE_DIR "bad.mp4")
                 (scene_loop encode_number [] scene_world)).1 = None)
    by reflexivity.
  split; [exact H|].
  destruct (artifact_iff_keyframe_readable encode_number) as (_ & _ & _ & Hsib).
  exact (Hsib [] "bad.mp4" ["a_clip_000.mp4"] scene_world H).
Defined.

(** ** Artifact names *)
Section Renaming.
Implicit Types (s a b old new : string) (c : ascii).

Lemma str_app_length a b :
  String.length (a +:+ b) = (String.length a + String.length b)%nat.
Proof. induction a as [|c a IH]; [reflexivity|]. rewrite str_app_cons. simpl. rewrite IH. reflexivity. Qed.


Lemma str_app_inv_tail a b s : a +:+ s = b +:+ s -> a = b.
Proof.
  revert b. induction a as [|c a IH]; intros [|d b] H.
  - reflexivity.
  - apply (f_equal String.length) in H. rewrite !str_app_length in H.
    simpl in H. lia.
  - apply (f_equal String.length) in H. rewrite !str_app_length in H.
    simpl in H. lia.
  - rewrite !str_app_cons in H. inversion H; subst. f_equal. auto.
Qed.

Lemma str_endswith_app a suf : Py.str_endswith (a +:+ suf) suf = true.
Proof.
  unfold Py.str_endswith. rewrite str_app_length.
  replace (String.length a + String.length suf - String.length suf)%nat
    with (String.length a) by lia.
  rewrite str_drop_app, String.eqb_refl, andb_true_r.
  apply Nat.leb_le. lia.
Qed.

Lemma replace_go_skip old new k s :
  Py.replace_go old new k s = Py.replace_go old new 0 (Py.str_drop k s).
Proof.
  revert k. induction s as [|c r IH]; intros k.
  - destruct k; reflexivity.
  - destruct k as [|k]; [reflexivity|]. simpl. apply IH.
Qed.

Lemma embedding_name_match s :
  embedding_name (".mp4" +:+ s) = ".npy" +:+ embedding_name s.
Proof.
  unfold embedding_name, Py.str_replace.
  change (".mp4" +:+ s) with (String "." (String "m" (String "p" (String "4" s)))).
  cbn [Py.replace_go].
  assert (String.prefix ".mp4" (String "." (String "m" (String "p" (String "4" s)))) = true)
    as -> by (cbn; destruct s; reflexivity).
  rewrite replace_go_skip. reflexivity.
Qed.

Lemma embedding_name_no_match c s :
  String.prefix ".mp4" (String c s) = false ->
  embedding_name (String c s) = String c (embedding_name s).
Proof.
  intros H. unfold embedding_name, Py.str_replace. cbn [Py.replace_go].
  rewrite H. reflexivity.
Qed.

Lemma prefix_mp4_inv s :
  String.prefix ".mp4" s = true -> exists r, s = ".mp4" +:+ r.
Proof.
  intros H.
  destruct s as [|c1 [|c2 [|c3 [|c4 r]]]]; cbn [String.prefix] in H;
    repeat match type of H with
      | context [ascii_dec ?x ?y] => destruct (ascii_dec x y); [subst|discriminate]
      end; try discriminate.
  exists r. reflexivity.
Qed.



Lemma embedding_name_fixed_iff s :
  embedding_name s = s <-> Py.str_contains s ".mp4" = false.
Proof.
  induction s as [|c s IH]; [split; reflexivity|].
  cbn [Py.str_contains].
  destruct (String.prefix ".mp4" (String c s)) eqn:Hp.
  - destruct (prefix_mp4_inv _ Hp) as [r Hr]. rewrite Hr, embedding_name_match.
    split; discriminate.
  - rewrite (embedding_name_no_match c s Hp). cbn [orb]. rewrite <- IH.
    split; [intros H; inversion H; congruence | intros ->; reflexivity].
Qed.


End Renaming.



(** ** Scenario A, end to end *)

(** 307 frames at 24 fps, 5-second clips: one conversion, three clips of
    120, 120 and 67 frames, three embeddings taken at frames 60, 180 and
    273 of the source. *)
Example pipeline_scenario_A :
  exists w,
    driver ffmpeg_copy 4 (video_files ["notes.txt"; "a.mov"]) raw_world = Returned w /\
    trace w = [Print_converting "video_data/raw_videos/a.mov";
               Run_ffmpeg "video_data/raw_videos/a.mov" "video_data/converted_videos/a.mp4";
               Print_converted "video_data/converted_videos/a.mp4";
               Print_processing "a" 307 24; Print_done "a" 3] /\
    let files := scene_files ["a_clip_002.mp4"; "a_clip_000.mp4"; "readme.md";
                              "a_clip_001.mp4"] in
    let w' := scene_loop encode_number files w in
    saves w' = ["embeddings/a_clip_000.npy"; "embeddings/a_clip_001.npy";
                "embeddings/a_clip_002.npy"] /\
    (fun p => fs w' !! p) <$> saves w'
    = [Some (FArray [60]); Some (FArray [180]); Some (FArray [273])].
Proof.
  destruct (driver ffmpeg_copy 4 (video_files ["notes.txt"; "a.mov"]) raw_world)
    as [w| |] eqn:E; [|vm_compute in E; discriminate..].
  exists w. split; [reflexivity|].
  vm_compute in E. inversion E; subst. clear E.
  split; [reflexivity|]. vm_compute. split; reflexivity.
Qed.

(** * Further properties *)

(** ** Clips of a well-behaved stream *)
Section Chunks.
Context {Frame : Type}.
Implicit Types (frames : list Frame) (st : list (option Frame)) (v : Video Frame)
  (e : list (Clip Frame)).
Variables (out_dir video_name : string).

Lemma chunk_clips_lookup (b fuel : nat) :
  (0 < b)%nat ->
  forall idx start frames (i : nat) (c : Clip Frame),
    (length frames <= fuel)%nat ->
    chunk_clips out_dir video_name b fuel idx start frames !! i = Some c ->
    c_index c = idx + Z.of_nat i /\
    c_start c = start + Z.of_nat (i * b) /\
    c_path c = clip_path out_dir video_name (idx + Z.of_nat i) /\
    c_frames c = take b (drop (i * b) frames).
Proof.
  intros Hb. induction fuel as [|k IH]; intros idx start frames i c Hlen Hl;
    [discriminate|].
  destruct frames as [|f frames]; [discriminate|].
  cbn [chunk_clips] in Hl. destruct i as [|i]; cbn [lookup list_lookup] in Hl.
  - inversion Hl; subst. cbn [c_index c_start c_path c_frames].
    rewrite !Z.add_0_r. auto.
  - destruct (decide (b <= length (f :: frames))%nat) as [Hge|Hlt].
    + apply IH in Hl; [|rewrite length_drop; simpl in *; lia].
      rewrite length_take, Nat.min_l in Hl by exact Hge.
      destruct Hl as (H1 & H2 & H3 & H4).
      split; [lia|]. split; [lia|]. split; [rewrite H3; f_equal; lia|].
      rewrite H4, drop_drop. reflexivity.
    + rewrite (drop_ge (f :: frames) b) in Hl by lia.
      destruct k; discriminate.
Qed.

Lemma ceil_div_step (n b : Z) :
  0 < b -> 0 < n ->
  (n + b - 1) / b = 1 + (Z.max 0 (n - b) + b - 1) / b.
Proof.
  intros Hb Hn. destruct (Z_le_gt_dec b n) as [Hge|Hlt].
  - rewrite Z.max_r by lia.
    replace (n + b - 1) with ((n - b + b - 1) + 1 * b) by lia.
    rewrite Z.div_add by lia. lia.
  - rewrite Z.max_l by lia. rewrite (Z.div_small (0 + b - 1)) by lia.
    symmetry. apply Z.div_unique with (r := n - 1); lia.
Qed.

Lemma chunk_clips_length (b fuel : nat) :
  (0 < b)%nat ->
  forall idx start frames,
    (length frames <= fuel)%nat ->
    Z.of_nat (length (chunk_clips out_dir video_name b fuel idx start frames))
    = (Z.of_nat (length frames) + Z.of_nat b - 1) / Z.of_nat b.
Proof.
  intros Hb. induction fuel as [|k IH]; intros idx start frames Hlen.
  - destruct frames; [|simpl in Hlen; lia]. simpl.
    symmetry. apply Z.div_small. lia.
  - destruct frames as [|f frames].
    + simpl. symmetry. apply Z.div_small. lia.
    + cbn [chunk_clips]. remember (f :: frames) as fr eqn:Hfr.
      assert (0 < length fr)%nat by (subst fr; simpl; lia).
      cbn [length]. rewrite Nat2Z.inj_succ, IH by (rewrite length_drop; lia).
      rewrite length_drop, (ceil_div_step (Z.of_nat (length fr))) by lia.
      replace (Z.max 0 (Z.of_nat (length fr) - Z.of_nat b))
        with (Z.of_nat (length fr - b)) by lia.
      lia.
Qed.

(** The exact run of the loop on a stream that delivers the announced
    frames. *)
Lemma segment_readable_exact (clip_frames total_frames : Z) (n : nat) :
  0 < clip_frames ->
  forall frames st v ci fi e,
    (length frames <= n)%nat ->
    total_frames - fi = Z.of_nat (length frames) ->
    while (outer_cond total_frames)
          (outer_body out_dir video_name clip_frames total_frames) (S n)
          {| cap := {| cap_video := v; cap_stream := (Some <$> frames) ++ st |};
             clip_idx := ci; frame_idx := fi; emitted := e |}
    = Some {| cap := {| cap_video := v; cap_stream := st |};
              clip_idx := ci + Z.of_nat (length (chunk_clips out_dir video_name
                                           (Z.to_nat clip_frames) n ci fi frames));
              frame_idx := total_frames;
              emitted := e ++ chunk_clips out_dir video_name
                                (Z.to_nat clip_frames) n ci fi frames |}.
Proof.
  intros Hpos. induction n as [|k IH]; intros frames st v ci fi e Hn Hrem.
  - destruct frames; [|simpl in Hn; lia]. simpl. unfold outer_cond; simpl.
    assert ((fi <? total_frames) = false) as -> by (apply Z.ltb_ge; simpl in Hrem; lia).
    rewrite app_nil_r, Z.add_0_r. do 3 f_equal. simpl in Hrem. lia.
  - destruct frames as [|f frames].
    + simpl. unfold outer_cond; simpl.
      assert ((fi <? total_frames) = false) as -> by (apply Z.ltb_ge; simpl in Hrem; lia).
      rewrite app_nil_r, Z.add_0_r. do 3 f_equal. simpl in Hrem. lia.
    + change (while ?c ?b (S (S k)) ?s) with
        (if c s then match b s with Next s' => while c b (S k) s' | Break s' => Some s' end else Some s).
      unfold outer_cond at 1. cbn [frame_idx].
      assert ((fi <? total_frames) = true) as -> by (apply Z.ltb_lt; simpl in Hrem; lia).
      rewrite outer_body_spec. cbn zeta.
      set (fr := f :: frames) in *.
      set (m := Z.to_nat (Z.min clip_frames (total_frames - fi))).
      assert (Hm : m = Nat.min (Z.to_nat clip_frames) (length fr)) by (subst m; lia).
      assert (Htake : take m fr = take (Z.to_nat clip_frames) fr).
      { rewrite Hm. destruct (Nat.min_spec (Z.to_nat clip_frames) (length fr)) as [[_ ->]|[Hle ->]];
          [reflexivity|]. rewrite !take_ge by lia. reflexivity. }
      assert (Hdrop : drop m fr = drop (Z.to_nat clip_frames) fr).
      { rewrite Hm. destruct (Nat.min_spec (Z.to_nat clip_frames) (length fr)) as [[_ ->]|[Hle ->]];
          [reflexivity|]. rewrite !drop_ge by lia. reflexivity. }
      rewrite (read_upto_readable m fr st) by lia. cbn [fst snd].
      rewrite Htake, Hdrop.
      rewrite IH.
      * cbn [chunk_clips]. subst fr. cbn [length].
        rewrite <- app_assoc. cbn [app]. rewrite Nat2Z.inj_succ.
        do 2 f_equal. lia.
      * rewrite length_drop. subst fr. simpl length in *. lia.
      * rewrite length_drop, <- Htake, length_take. subst fr. simpl length in *. lia.
Qed.

(** X1.  On a stream that delivers the announced frames, with a positive
    budget, the loop of [split_video] ends with all announced frames read
    and clip [i] holds exactly the source frames from offset
    [i * clip_frames], [clip_frames] of them or what is left, under the
    path built from index [i]. *)
Theorem segment_clip_contents (clip_frames : Z) v frames rest :
  0 < clip_frames ->
  v_stream v = (Some <$> frames) ++ rest ->
  v_frame_count v = Z.of_nat (length frames) ->
  exists fuel s,
    segment fuel out_dir video_name clip_frames (open_capture v) = Some s /\
    frame_idx s = v_frame_count v /\
    cap_stream (cap s) = rest /\
    forall (i : nat) c, emitted s !! i = Some c ->
      c_index c = Z.of_nat i /\
      c_start c = Z.of_nat i * clip_frames /\
      c_path c = clip_path out_dir video_name (Z.of_nat i) /\
      c_frames c = take (Z.to_nat clip_frames) (drop (i * Z.to_nat clip_frames) frames).
Proof.
  intros Hpos Hst Hcount.
  exists (S (length frames)). eexists. split.
  - unfold segment, outer_init, open_capture. cbn [cap_video]. rewrite Hst.
    apply (segment_readable_exact clip_frames (v_frame_count v) (length frames) Hpos
             frames rest v 0 0 []); lia.
  - cbn [frame_idx cap cap_stream emitted app]. split; [reflexivity|]. split; [reflexivity|].
    intros i c Hl.
    apply chunk_clips_lookup in Hl; [|lia|lia].
    destruct Hl as (H1 & H2 & H3 & H4). rewrite Z.add_0_l in *.
    repeat split; [exact H1 | rewrite H2; lia | exact H3 | exact H4].
Qed.

(** X2.  On such a stream the number of clips is the frame count divided by
    the budget, rounded up; [clip_idx] ends at that number. *)
Theorem segment_clip_count (clip_frames : Z) v frames rest :
  0 < clip_frames ->
  v_stream v = (Some <$> frames) ++ rest ->
  v_frame_count v = Z.of_nat (length frames) ->
  exists fuel s,
    segment fuel out_dir video_name clip_frames (open_capture v) = Some s /\
    clip_idx s = (v_frame_count v + clip_frames - 1) / clip_frames /\
    Z.of_nat (length (emitted s)) = (v_frame_count v + clip_frames - 1) / clip_frames.
Proof.
  intros Hpos Hst Hcount.
  exists (S (length frames)). eexists. split.
  - unfold segment, outer_init, open_capture. cbn [cap_video]. rewrite Hst.
    apply (segment_readable_exact clip_frames (v_frame_count v) (length frames) Hpos
             frames rest v 0 0 []); lia.
  - cbn [clip_idx emitted app]. rewrite Z.add_0_l.
    rewrite chunk_clips_length by lia.
    rewrite Hcount, Z2Nat.id by lia. auto.
Qed.
End Chunks.

(** ** Termination of segmentation *)
Section Termination.
Context {Frame : Type}.
Implicit Types (frames : list Frame) (st : list (option Frame)) (v : Video Frame)
  (e : list (Clip Frame)).
Variables (out_dir video_name : string).

Lemma read_upto_progress n st :
  (0 < n)%nat -> st <> [] -> (length (read_upto n st).2 < length st)%nat.
Proof.
  revert st. induction n as [|k IH]; intros st Hn Hst; [lia|].
  destruct st as [|[f|] r]; [congruence| |simpl; lia].
  simpl. destruct k as [|k].
  - simpl. lia.
  - destruct r as [|x r'].
    + simpl. lia.
    + specialize (IH (x :: r') ltac:(lia) ltac:(discriminate)).
      destruct (read_upto (S k) (x :: r')) as [got r2]. simpl in *. lia.
Qed.

Lemma read_upto_deliverable n st :
  deliverable st = (read_upto n st).1 ++ deliverable (read_upto n st).2.
Proof.
  destruct (read_upto_consumed n st) as (pre & H1 & H2).
  rewrite H1 at 1. unfold deliverable. rewrite omap_app, H2. reflexivity.
Qed.

Lemma frames_total_concat e :
  frames_total e = Z.of_nat (length (concat (c_frames <$> e))).
Proof.
  unfold frames_total. induction e as [|c e IH]; [reflexivity|].
  cbn [foldr fmap list_fmap concat]. rewrite length_app, Nat2Z.inj_add, IH.
  reflexivity.
Qed.

(** With a positive budget the loop exits once the stream has delivered
    the announced frames; every pass shortens the stream. *)
Lemma segment_exits_when_deliverable (clip_frames total_frames : Z) (n : nat) :
  0 < clip_frames ->
  forall st v ci fi e,
    (length st <= n)%nat ->
    total_frames <= fi + Z.of_nat (length (deliverable st)) ->
    exists s,
      while (outer_cond total_frames)
            (outer_body out_dir video_name clip_frames total_frames) (S n)
            {| cap := {| cap_video := v; cap_stream := st |};
               clip_idx := ci; frame_idx := fi; emitted := e |} = Some s.
Proof.
  intros Hpos. induction n as [|k IH]; intros st v ci fi e Hn Hd.
  - destruct st; [|simpl in Hn; lia]. simpl in Hd. simpl. unfold outer_cond; simpl.
    assert ((fi <? total_frames) = false) as -> by (apply Z.ltb_ge; lia). eauto.
  - change (while ?c ?b (S (S k)) ?s) with
      (if c s then match b s with Next s' => while c b (S k) s' | Break s' => Some s' end else Some s).
    unfold outer_cond at 1. cbn [frame_idx].
    destruct (fi <? total_frames) eqn:Hc; [|eauto]. apply Z.ltb_lt in Hc.
    rewrite outer_body_spec. cbn zeta.
    set (m := Z.to_nat (Z.min clip_frames (total_frames - fi))).
    assert (st <> []) as Hne by (intros ->; simpl in Hd; lia).
    pose proof (read_upto_progress m st ltac:(subst m; lia) Hne) as Hprog.
    pose proof (read_upto_deliverable m st) as Hdel.
    apply IH; [lia|].
    rewrite Hdel, length_app in Hd. lia.
Qed.

(** X3.  The loop of [split_video] ends exactly when the reported frame
    count is not positive, or the budget is positive and the stream can
    deliver at least the reported number of frames. *)
Theorem segment_terminates_iff (clip_frames : Z) v :
  (exists fuel s, segment fuel out_dir video_name clip_frames (open_capture v) = Some s)
  <-> v_frame_count v <= 0 \/
      (0 < clip_frames /\
       v_frame_count v <= Z.of_nat (length (deliverable (v_stream v)))).
Proof.
  split.
  - intros (fuel & s & Hrun).
    destruct (Z_le_gt_dec (v_frame_count v) 0) as [Hle|Hgt]; [left; exact Hle|right].
    destruct (Z_lt_le_dec 0 clip_frames) as [Hpos|Hnp].
    + split; [exact Hpos|].
      unfold segment in Hrun.
      apply (while_invariant _ _
               (segment_inv (v_frame_count (cap_video (open_capture v)))
                            (cap_stream (open_capture v)))) in Hrun;
        [|intros x Hx Hc; apply segment_inv_step; assumption|apply segment_inv_init].
      destruct Hrun as [(_ & _ & Hfi & _ & consumed & Hst & Hfr) Hexit].
      unfold outer_cond in Hexit. apply Z.ltb_ge in Hexit.
      cbn [open_capture cap_video cap_stream] in *.
      rewrite frames_total_concat, Hfr in Hfi.
      unfold deliverable. rewrite Hst, omap_app, length_app. lia.
    + exfalso.
      destruct (segment_no_budget_never_exits out_dir video_name clip_frames
                  (open_capture v) Hnp) as [Hnev _]; [simpl; lia|].
      rewrite Hnev in Hrun. discriminate.
  - intros [Hle|[Hpos Hd]].
    + exists 1%nat. eexists. unfold segment. simpl. unfold outer_cond. simpl.
      assert ((0 <? v_frame_count v) = false) as -> by (apply Z.ltb_ge; lia).
      reflexivity.
    + destruct (segment_exits_when_deliverable clip_frames (v_frame_count v)
                  (length (v_stream v)) Hpos (v_stream v) v 0 0 []) as [s Hs];
        [lia | lia |].
      exists (S (length (v_stream v))), s. exact Hs.
Qed.
End Termination.

(** ** Invariants of a running segmentation *)
Section AfterFacts.
Context {S : Type} (cond : S -> bool) (body : S -> step S).

Lemma after_invariant (I : S -> Prop) (n : nat) (s r : S) :
  (forall x, I x -> cond x = true ->
     match body x with Next y => I y | Break y => I y /\ cond y = false end) ->
  I s -> after cond body n s = Some r -> I r.
Proof.
  intros Hstep. revert s. induction n as [|k IH]; intros s Hs H.
  - inversion H; subst. exact Hs.
  - simpl in H. destruct (cond s) eqn:Hc; [|discriminate].
    specialize (Hstep s Hs Hc). destruct (body s) as [y|y]; [|discriminate].
    exact (IH y Hstep H).
Qed.
End AfterFacts.

Section Running.
Context {Frame : Type}.
Implicit Types (st : list (option Frame)) (v : Video Frame) (e : list (Clip Frame)).
Variables (out_dir video_name : string).

Lemma after_clips_within_budget (clip_frames total : Z) (s : Outer Frame) :
  forall k (x : Outer Frame),
    after (outer_cond total) (outer_body out_dir video_name clip_frames total) k x
    = Some s ->
    Forall (fun cl => Z.of_nat (length (c_frames cl)) <= Z.max 0 clip_frames)
           (emitted x) ->
    length (emitted s) = (length (emitted x) + k)%nat /\
    Forall (fun cl => Z.of_nat (length (c_frames cl)) <= Z.max 0 clip_frames)
           (emitted s).
Proof.
  induction k as [|k IH]; intros x H HF.
  - inversion H; subst. split; [lia | exact HF].
  - cbn [after] in H. destruct (outer_cond total x); [|discriminate].
    destruct x as [[v st] ci fi e]. rewrite outer_body_spec in H. cbn zeta in H.
    apply IH in H.
    + cbn [emitted] in *. rewrite length_app in H. simpl in H.
      destruct H as [H1 H2]. split; [lia | exact H2].
    + cbn [emitted] in *. apply Forall_app. split; [exact HF|].
      constructor; [|constructor]. cbn [c_frames].
      pose proof (read_upto_length
                    (Z.to_nat (Z.min clip_frames (total - fi))) st). lia.
Qed.

(** X13.  After any number [n] of passes of the outer loop, whether or not
    the loop ever ends, [n] writers have been opened and released, one per
    pass, their clips are numbered densely from 0 and laid end to end from
    offset 0 up to [frame_idx], no clip holds more frames than
    [max 0 clip_frames], and [frame_idx] lies between 0 and
    [max 0 total_frames]. *)
Theorem segment_invariants_at_every_pass (n : nat) (clip_frames : Z)
    (c : Capture Frame) (s : Outer Frame) :
  segment_after n out_dir video_name clip_frames c = Some s ->
  length (emitted s) = n /\
  clip_idx s = Z.of_nat n /\
  frame_idx s = frames_total (emitted s) /\
  0 <= frame_idx s <= Z.max 0 (v_frame_count (cap_video c)) /\
  (forall (i : nat) cl, emitted s !! i = Some cl ->
     c_index cl = Z.of_nat i /\
     c_start cl = frames_total (take i (emitted s)) /\
     Z.of_nat (length (c_frames cl)) <= Z.max 0 clip_frames).
Proof.
  intros Hrun. unfold segment_after in Hrun.
  set (total := v_frame_count (cap_video c)) in *.
  assert (Hinv : segment_inv total (cap_stream c) s).
  { apply (after_invariant (outer_cond total)
             (outer_body out_dir video_name clip_frames total)
             (segment_inv total (cap_stream c)) n (outer_init c) s);
      [intros x Hx Hc; apply segment_inv_step; assumption
      | apply segment_inv_init | exact Hrun]. }
  destruct (after_clips_within_budget clip_frames total s n (outer_init c) Hrun)
    as [Hlen HF]; [constructor|].
  cbn [outer_init emitted length] in Hlen.
  destruct Hinv as (Hci & Hcont & Hfi & Hle & _).
  pose proof (frames_total_nonneg (emitted s)) as Hnn.
  split; [lia|]. split; [lia|]. split; [exact Hfi|]. split; [lia|].
  intros i cl Hl.
  destruct (contiguous_from_lookup 0 0 _ i cl Hcont Hl) as [H1 H2].
  split; [lia|]. split; [lia|].
  rewrite Forall_forall in HF. apply HF. eapply list_elem_of_lookup_2. exact Hl.
Qed.
End Running.

(** ** Clip names *)
Section Names.
Implicit Types (s a b : string) (n i j : Z).

Lemma int_of_digits_zero s : int_of_digits (String "0" s) = int_of_digits s.
Proof.
  unfold int_of_digits. cbn [NilEmpty.uint_of_string].
  destruct (NilEmpty.uint_of_string s) as [d|]; reflexivity.
Qed.

Lemma int_of_digits_zero_pad width s :
  int_of_digits (Py.zero_pad width s) = int_of_digits s.
Proof.
  unfold Py.zero_pad. induction (width - String.length s)%nat as [|k IH];
    [reflexivity|].
  cbn [Py.str_repeat]. rewrite str_app_cons, int_of_digits_zero. exact IH.
Qed.

Lemma int_of_digits_digits n : 0 <= n -> int_of_digits (Py.digits n) = Some n.
Proof.
  intros Hn. unfold int_of_digits, Py.digits.
  assert (Hd : NilEmpty.uint_of_string
                 (NilZero.string_of_uint (N.to_uint (Z.abs_N n)))
               = Some (N.to_uint (Z.abs_N n))).
  { destruct (Z.abs_N n) as [|p] eqn:E; [reflexivity|].
    pose proof (DecimalPos.Unsigned.to_uint_nonnil p) as Hnn.
    unfold N.to_uint.
    replace (NilZero.string_of_uint (Pos.to_uint p))
      with (NilEmpty.string_of_uint (Pos.to_uint p))
      by (destruct (Pos.to_uint p); [congruence | reflexivity..]).
    apply NilEmpty.usu. }
  rewrite Hd, DecimalN.Unsigned.of_to. f_equal. lia.
Qed.

Lemma format_03d_round_trip n :
  0 <= n -> int_of_digits (Py.format_03d n) = Some n.
Proof.
  intros Hn. unfold Py.format_03d.
  assert ((n <? 0) = false) as -> by (apply Z.ltb_ge; lia).
  rewrite int_of_digits_zero_pad. apply int_of_digits_digits, Hn.
Qed.

Lemma prefix_empty s : String.prefix "" s = true.
Proof. destruct s; reflexivity. Qed.

Lemma clip_path_inj out_dir video_name i j :
  0 <= i -> 0 <= j ->
  clip_path out_dir video_name i = clip_path out_dir video_name j -> i = j.
Proof.
  intros Hi Hj H.
  assert (Hfmt : Py.format_03d i = Py.format_03d j).
  { unfold clip_path, Py.join in H.
    assert (Hsw : forall x, Py.str_startswith (video_name +:+ "_clip_" +:+ x) "/"
                            = Py.str_startswith (video_name +:+ "_") "/").
    { intros x. unfold Py.str_startswith.
      destruct video_name as [|c r]; [reflexivity|].
      rewrite !str_app_cons. cbn [String.prefix].
      destruct (ascii_dec "/" c); [|reflexivity].
      rewrite !prefix_empty. reflexivity. }
    rewrite !Hsw in H.
    destruct (Py.str_startswith (video_name +:+ "_") "/").
    - apply (inj (String.app video_name)), (inj (String.app "_clip_")) in H.
      apply str_app_inv_tail in H. exact H.
    - destruct (String.eqb out_dir "" || Py.str_endswith out_dir "/").
      + apply (inj (String.app out_dir)), (inj (String.app video_name)),
          (inj (String.app "_clip_")) in H.
        apply str_app_inv_tail in H. exact H.
      + apply (inj (String.app out_dir)), (inj (String.app "/")),
          (inj (String.app video_name)), (inj (String.app "_clip_")) in H.
        apply str_app_inv_tail in H. exact H. }
  apply (f_equal int_of_digits) in Hfmt.
  rewrite !format_03d_round_trip in Hfmt by assumption. congruence.
Qed.
(** X5.  Distinct sequence indices give distinct clip paths, also past the
    three digits of the padding. *)
Theorem clip_names_distinct out_dir video_name i j :
  0 <= i -> 0 <= j -> i <> j ->
  clip_path out_dir video_name i <> clip_path out_dir video_name j.
Proof.
  intros Hi Hj Hne Heq. apply Hne. exact (clip_path_inj out_dir video_name i j Hi Hj Heq).
Qed.
End Names.

(** ** Clip files in the file system *)
Section Storage.
Context {Frame Vec : Type}.
Implicit Types (v : Video Frame) (w : World Frame Vec)
  (m : gmap string (File Frame Vec)) (clips : list (Clip Frame)).

Lemma write_clips_snoc v m clips (c : Clip Frame) :
  write_clips v m (clips ++ [c])
  = <[c_path c := clip_file v c]> (write_clips v m clips).
Proof. unfold write_clips. rewrite foldl_app. reflexivity. Qed.

Lemma write_clips_lookup_other v m clips (p : string) :
  (forall c, c ∈ clips -> c_path c <> p) ->
  write_clips (Vec:=Vec) v m clips !! p = m !! p.
Proof.
  induction clips as [|c clips IH] using rev_ind; intros H; [reflexivity|].
  rewrite write_clips_snoc, lookup_insert_ne.
  - apply IH. intros c' Hc'. apply H. set_solver.
  - apply H. set_solver.
Qed.

Lemma write_clips_lookup_is_Some v m clips (p : string) :
  is_Some (m !! p) -> is_Some (write_clips (Vec:=Vec) v m clips !! p).
Proof.
  induction clips as [|c clips IH] using rev_ind; intros H; [exact H|].
  rewrite write_clips_snoc. destruct (decide (c_path c = p)) as [->|Hne].
  - rewrite lookup_insert_eq. eauto.
  - rewrite lookup_insert_ne by exact Hne. auto.
Qed.

(** Every clip written so far is named after its own sequence index. *)
Lemma segment_clip_paths fuel out_dir video_name clip_frames (c : Capture Frame) s :
  segment fuel out_dir video_name clip_frames c = Some s ->
  Forall (fun cl => c_path cl = clip_path out_dir video_name (c_index cl)) (emitted s).
Proof.
  intros Hrun. unfold segment in Hrun.
  apply (while_invariant _ _
           (fun x => Forall (fun cl => c_path cl
                                = clip_path out_dir video_name (c_index cl))
                            (emitted x))) in Hrun.
  - apply Hrun.
  - intros [[v st] ci fi e] Hx _. rewrite outer_body_spec. cbn zeta.
    cbn [emitted] in *. apply Forall_app. split; [exact Hx|].
    constructor; [reflexivity | constructor].
  - constructor.
Qed.

Lemma segment_clip_paths_NoDup fuel out_dir video_name clip_frames (c : Capture Frame) s :
  segment fuel out_dir video_name clip_frames c = Some s ->
  NoDup (c_path <$> emitted s).
Proof.
  intros Hrun. pose proof (segment_clip_paths _ _ _ _ _ _ Hrun) as Hp.
  unfold segment in Hrun.
  apply (while_invariant _ _
           (segment_inv (v_frame_count (cap_video c)) (cap_stream c))) in Hrun;
    [|intros x Hx Hc; apply segment_inv_step; assumption|apply segment_inv_init].
  destruct Hrun as [(_ & Hcont & _) _].
  apply NoDup_alt. intros i j p Hi Hj.
  rewrite list_lookup_fmap in Hi, Hj.
  destruct (emitted s !! i) as [ci|] eqn:Ei; [|discriminate].
  destruct (emitted s !! j) as [cj|] eqn:Ej; [|discriminate].
  simpl in Hi, Hj. inversion Hi; inversion Hj; subst.
  destruct (contiguous_from_lookup 0 0 _ _ _ Hcont Ei) as [Hii _].
  destruct (contiguous_from_lookup 0 0 _ _ _ Hcont Ej) as [Hjj _].
  rewrite Forall_forall in Hp.
  assert (Pi := Hp ci ltac:(eapply list_elem_of_lookup_2; eauto)).
  assert (Pj := Hp cj ltac:(eapply list_elem_of_lookup_2; eauto)).
  rewrite Pi, Pj in H1. apply clip_path_inj in H1; lia.
Qed.

(** X4.  A call of [split_video] that returns has changed no path other
    than the clip paths of its video, and has removed no file. *)
Theorem split_video_touches_only_clip_paths fuel file_path out_dir clip_duration w w' :
  split_video fuel file_path out_dir clip_duration w = Returned w' ->
  (forall p, (forall i, p <> clip_path out_dir (base_name_of file_path) i) ->
             fs w' !! p = fs w !! p) /\
  (forall p, is_Some (fs w !! p) -> is_Some (fs w' !! p)).
Proof.
  intros Hrun. unfold split_video in Hrun.
  destruct (VideoCapture (fs w) file_path) as [c|];
    [|inversion Hrun; subst; split; auto].
  destruct (clip_frames_of (cap_video c) clip_duration) as [b|]; [|discriminate].
  destruct (segment fuel out_dir (base_name_of file_path) b c) as [s|] eqn:Hs;
    [|discriminate].
  inversion Hrun; subst. cbn [fs emit]. split.
  - intros p Hp. apply write_clips_lookup_other. intros cl Hcl.
    pose proof (segment_clip_paths _ _ _ _ _ _ Hs) as HF.
    rewrite Forall_forall in HF. rewrite (HF cl Hcl). intros Heq. eapply Hp. eauto.
  - intros p. apply write_clips_lookup_is_Some.
Qed.

(** X6.  In every run of the loop of [split_video] that ends, also one with
    failed reads, the writer of clip [i] is opened on the path built from
    index [i] and no two writers of the run are opened on the same path:
    no clip of a run is written over another clip of that run. *)
Theorem segment_clips_have_distinct_paths fuel out_dir video_name clip_frames
    (c : Capture Frame) s :
  segment fuel out_dir video_name clip_frames c = Some s ->
  NoDup (c_path <$> emitted s) /\
  forall (i : nat) cl, emitted s !! i = Some cl ->
    c_path cl = clip_path out_dir video_name (Z.of_nat i).
Proof.
  intros Hrun. split; [exact (segment_clip_paths_NoDup _ _ _ _ _ _ Hrun)|].
  intros i cl Hl.
  pose proof (segment_clip_paths _ _ _ _ _ _ Hrun) as Hp.
  rewrite Forall_forall in Hp.
  rewrite (Hp cl (list_elem_of_lookup_2 _ _ _ Hl)). f_equal.
  unfold segment in Hrun.
  apply (while_invariant _ _
           (segment_inv (v_frame_count (cap_video c)) (cap_stream c))) in Hrun;
    [|intros x Hx Hc; apply segment_inv_step; assumption|apply segment_inv_init].
  destruct Hrun as [(_ & Hcont & _) _].
  destruct (contiguous_from_lookup 0 0 _ _ _ Hcont Hl) as [Hi _]. lia.
Qed.
End Storage.

(** ** Keyframes of clips *)
Section Keyframes.
Context {Frame Vec : Type}.
Implicit Types (v : Video Frame) (w : World Frame Vec) (frames : list Frame).

(** X12.  On a stream that delivers the announced frames, with a positive
    budget [b], clip [i] exists whenever [i * b] is below the frame count;
    and for any file at its path that reports the number of frames written
    to the clip and whose decoder, sought to the middle index, delivers
    the frame written at that index, [extract_middle_frame] returns the
    source frame at offset [i * b + len / 2], where [len] is the length of
    the clip. *)
Theorem keyframe_of_clip out_dir video_name (b : Z) v frames
    (rest : list (option Frame)) (i : nat) :
  0 < b ->
  v_stream v = (Some <$> frames) ++ rest ->
  v_frame_count v = Z.of_nat (length frames) ->
  Z.of_nat i * b < v_frame_count v ->
  exists fuel s cl,
    segment fuel out_dir video_name b (open_capture v) = Some s /\
    emitted s !! i = Some cl /\
    c_path cl = clip_path out_dir video_name (Z.of_nat i) /\
    Z.of_nat (length (c_frames cl)) = Z.min b (v_frame_count v - Z.of_nat i * b) /\
    forall (w : World Frame Vec) (stored : Video Frame),
      fs w !! c_path cl = Some (FVideo stored) ->
      v_frame_count stored = Z.of_nat (length (c_frames cl)) ->
      frame_at stored (v_frame_count stored / 2)
      = c_frames cl !! Z.to_nat (v_frame_count stored / 2) ->
      (extract_middle_frame (c_path cl) w).1
      = frames !! Z.to_nat (Z.of_nat i * b
                            + Z.min b (v_frame_count v - Z.of_nat i * b) / 2).
Proof.
  intros Hpos Hst Hcount Hi.
  set (chunks := chunk_clips out_dir video_name (Z.to_nat b) (length frames) 0 0 frames).
  assert (Hrun : segment (S (length frames)) out_dir video_name b (open_capture v)
                 = Some {| cap := {| cap_video := v; cap_stream := rest |};
                           clip_idx := 0 + Z.of_nat (length chunks);
                           frame_idx := v_frame_count v;
                           emitted := [] ++ chunks |}).
  { unfold segment, outer_init, open_capture. cbn [cap_video]. rewrite Hst.
    apply (segment_readable_exact out_dir video_name b (v_frame_count v)
             (length frames) Hpos frames rest v 0 0 []); lia. }
  assert (Hlen : Z.of_nat (length chunks)
                 = (Z.of_nat (length frames) + Z.of_nat (Z.to_nat b) - 1)
                   / Z.of_nat (Z.to_nat b))
    by (apply chunk_clips_length; lia).
  rewrite Z2Nat.id in Hlen by lia.
  assert (Hil : (i < length chunks)%nat).
  { assert (Z.of_nat i + 1 <= (Z.of_nat (length frames) + b - 1) / b)
      by (apply Z.div_le_lower_bound; [lia | nia]).
    lia. }
  destruct (lookup_lt_is_Some_2 chunks i Hil) as [cl Hc].
  destruct (chunk_clips_lookup out_dir video_name (Z.to_nat b) (length frames)
              ltac:(lia) 0 0 frames i cl ltac:(lia) Hc) as (_ & _ & Hpath & Hfr).
  rewrite Z.add_0_l in Hpath.
  assert (Hclen : Z.of_nat (length (c_frames cl))
                  = Z.min b (v_frame_count v - Z.of_nat i * b)).
  { rewrite Hfr, length_take, length_drop. lia. }
  eexists _, _, cl. split; [exact Hrun|]. cbn [emitted app].
  split; [exact Hc|]. split; [exact Hpath|]. split; [exact Hclen|].
  intros w stored Hfile Hcnt Hdec.
  rewrite (extract_middle_frame_opened (c_path cl) w stored Hfile).
  cbn [fst]. rewrite Hdec, Hcnt, Hclen.
  set (len := Z.min b (v_frame_count v - Z.of_nat i * b)).
  assert (0 < len) by (subst len; lia).
  assert (0 <= len / 2 < len)
    by (split; [apply Z.div_pos; lia | apply Z.div_lt; lia]).
  rewrite Hfr, lookup_take_lt by (subst len; lia).
  rewrite lookup_drop. f_equal. lia.
Qed.
End Keyframes.

(** ** The driver and the two filters *)
Section Driver.
Context {Frame Vec : Type}.
Implicit Types (w : World Frame Vec).
Variable ffmpeg :
  string -> string -> gmap string (File Frame Vec) -> Z * gmap string (File Frame Vec).

Lemma join_nonempty a b : b <> "" -> Py.join a b <> "".
Proof.
  intros Hb H. apply (f_equal String.length) in H. unfold Py.join in H.
  assert (0 < String.length b)%nat by (destruct b; [congruence | simpl; lia]).
  destruct (Py.str_startswith b "/"); [simpl in H; lia|].
  destruct (_ || _); rewrite ?str_app_length in H; simpl in H; lia.
Qed.

Lemma convert_to_mp4_result file_path out_dir w :
  (convert_to_mp4 ffmpeg file_path out_dir w).1 = None \/
  (convert_to_mp4 ffmpeg file_path out_dir w).1 = Some (mp4_output_path file_path out_dir).
Proof.
  unfold convert_to_mp4. destruct (path_exists _ w); [right; reflexivity|].
  destruct (ffmpeg _ _ _) as [status m]. destruct (status =? 0); auto.
Qed.

(** X7.  A conversion that yields a path yields the [.mp4] target path, the
    driver's truth test accepts it, and the driver calls [split_video] on
    it; the remaining videos are reached only if that call returns. *)
Theorem driver_segments_every_converted_video fuel video_file rest w p w1 :
  convert_to_mp4 ffmpeg (Py.join INPUT_DIR video_file) TEMP_DIR w = (Some p, w1) ->
  p = mp4_output_path (Py.join INPUT_DIR video_file) TEMP_DIR /\
  driver ffmpeg fuel (video_file :: rest) w
  = match split_video fuel p OUTPUT_DIR CLIP_DURATION w1 with
    | Returned w2 => driver ffmpeg fuel rest w2
    | Raised => Raised
    | OutOfFuel => OutOfFuel
    end.
Proof.
  intros Hc.
  assert (Hp : p = mp4_output_path (Py.join INPUT_DIR video_file) TEMP_DIR).
  { destruct (convert_to_mp4_result (Py.join INPUT_DIR video_file) TEMP_DIR w) as [H|H];
      rewrite Hc in H; simpl in H; congruence. }
  split; [exact Hp|].
  cbn [driver]. rewrite Hc.
  assert (truthy (Some p) = true) as ->; [|reflexivity].
  destruct p as [|c r] eqn:E; [|reflexivity].
  exfalso. symmetry in Hp. revert Hp. apply join_nonempty.
  intros H. apply (f_equal String.length) in H. rewrite str_app_length in H.
  simpl in H. lia.
Qed.
End Driver.

Section Filters.
Implicit Types (s a b : string).

Lemma str_lower_app a b : Py.str_lower (a +:+ b) = Py.str_lower a +:+ Py.str_lower b.
Proof.
  induction a as [|c a IH]; [reflexivity|].
  rewrite str_app_cons. cbn [Py.str_lower]. rewrite IH. reflexivity.
Qed.

Lemma clip_file_name_selected video_name idx :
  Py.str_endswith (Py.str_lower (clip_file_name video_name idx)) ".mp4" = true.
Proof.
  unfold clip_file_name.
  rewrite <- !str_app_assoc, str_lower_app.
  change (Py.str_lower ".mp4") with ".mp4". apply str_endswith_app.
Qed.

(** X8.  Every file name [split_video] builds for a clip is selected by the
    embedding notebook when it is listed in the scene directory. *)
Theorem clip_files_reach_the_embedding_stage video_name idx (listing : list string) :
  clip_file_name video_name idx ∈ listing ->
  clip_file_name video_name idx ∈ scene_files listing /\
  Py.join OUTPUT_DIR (clip_file_name video_name idx)
  = clip_path OUTPUT_DIR video_name idx.
Proof.
  intros Hin. split; [|reflexivity].
  unfold scene_files. rewrite merge_sort_Permutation.
  apply list_elem_of_In, filter_In. split; [apply list_elem_of_In, Hin|].
  apply clip_file_name_selected.
Qed.
End Filters.

(** ** The scene loop *)
Section SceneLoop.
Context {Frame Vec : Type}.
Implicit Types (w : World Frame Vec) (files : list string).
Variable encode : Frame -> Vec.

(** X9.  The scene loop calls [np.save] at most once per scene file, in the
    order of the files, and only on artifact paths of those files. *)
Theorem scene_loop_saves_at_most_one_per_clip files w :
  exists kept,
    kept `sublist_of` files /\
    saves (scene_loop encode files w) = saves w ++ (artifact_path <$> kept).
Proof.
  revert w. induction files as [|f files IH]; intros w.
  - exists []. split; [constructor|]. simpl. rewrite app_nil_r. reflexivity.
  - cbn [scene_loop foldl].
    fold (scene_loop encode files (scene_body encode f w)).
    destruct (IH (scene_body encode f w)) as (kept & Hsub & Hs).
    pose proof (scene_body_spec encode f w) as Hb.
    destruct ((extract_middle_frame (Py.join SCENE_DIR f) w).1) as [frame|].
    + destruct Hb as [_ Hb]. exists (f :: kept). split; [constructor; exact Hsub|].
      rewrite Hs, Hb, <- app_assoc. reflexivity.
    + destruct Hb as [_ Hb]. exists kept. split; [constructor; exact Hsub|].
      rewrite Hs, Hb. reflexivity.
Qed.

(** X10.  The scene loop changes no path other than the artifact paths of
    its scene files, and removes no file. *)
Theorem scene_loop_touches_only_artifacts files w :
  (forall p, p ∉ (artifact_path <$> files) ->
             fs (scene_loop encode files w) !! p = fs w !! p) /\
  (forall p, is_Some (fs w !! p) -> is_Some (fs (scene_loop encode files w) !! p)).
Proof.
  revert w. induction files as [|f files IH]; intros w; [split; auto|].
  cbn [scene_loop foldl].
  fold (scene_loop encode files (scene_body encode f w)).
  destruct (IH (scene_body encode f w)) as [IH1 IH2].
  pose proof (scene_body_spec encode f w) as Hb.
  split.
  - intros p Hp. rewrite fmap_cons in Hp. apply not_elem_of_cons in Hp as [Hne Hp].
    rewrite IH1 by exact Hp.
    destruct ((extract_middle_frame (Py.join SCENE_DIR f) w).1) as [frame|];
      destruct Hb as [-> _]; [|reflexivity].
    apply lookup_insert_ne. congruence.
  - intros p Hp. apply IH2.
    destruct ((extract_middle_frame (Py.join SCENE_DIR f) w).1) as [frame|];
      destruct Hb as [-> _]; [|exact Hp].
    destruct (decide (artifact_path f = p)) as [->|Hne].
    + rewrite lookup_insert_eq. eauto.
    + rewrite lookup_insert_ne by exact Hne. exact Hp.
Qed.
End SceneLoop.

Section UpperCase.
Implicit Types (s a b stem : string).


Lemma str_endswith_same_length a s1 s2 :
  String.length s1 = String.length s2 ->
  Py.str_endswith (a +:+ s1) s2 = String.eqb s1 s2.
Proof.
  intros Hl. unfold Py.str_endswith. rewrite str_app_length, <- Hl.
  replace (String.length a + String.length s1 - String.length s1)%nat
    with (String.length a) by lia.
  rewrite str_drop_app.
  assert ((String.length s1 <=? String.length a + String.length s1)%nat = true) as ->
    by (apply Nat.leb_le; lia).
  reflexivity.
Qed.

(** X11.  A scene file [stem.MP4] (upper-case extension, no [.mp4] in the
    name) is selected by the case-insensitive filter, its name is left as
    it is by the case-sensitive replacement, and [np.save] appends [.npy]:
    the artifact is [stem.MP4.npy]. *)
Theorem upper_case_extension_is_kept stem :
  Py.str_contains (stem +:+ ".MP4") ".mp4" = false ->
  Py.str_endswith (Py.str_lower (stem +:+ ".MP4")) ".mp4" = true /\
  artifact_path (stem +:+ ".MP4")
  = Py.join EMBEDDING_DIR (stem +:+ ".MP4") +:+ ".npy".
Proof.
  intros Hc. split.
  - rewrite str_lower_app. change (Py.str_lower ".MP4") with ".mp4".
    apply str_endswith_app.
  - unfold artifact_path, npy_file_name.
    rewrite (proj2 (embedding_name_fixed_iff _) Hc).
    assert (Py.str_endswith (Py.join EMBEDDING_DIR (stem +:+ ".MP4")) ".npy" = false)
      as ->; [|reflexivity].
    unfold Py.join. destruct (Py.str_startswith _ "/").
    + apply (str_endswith_same_length stem ".MP4" ".npy"). reflexivity.
    + change (String.eqb EMBEDDING_DIR "" || Py.str_endswith EMBEDDING_DIR "/")
        with false. cbv iota. rewrite <- !str_app_assoc.
      apply (str_endswith_same_length _ ".MP4" ".npy"). reflexivity.
Qed.
End UpperCase.

(** ** Scene files and artifact files *)
Section StringFacts.
Implicit Types (s a b suf : string).

Lemma str_take_drop (k : nat) s : Py.str_take k s +:+ Py.str_drop k s = s.
Proof.
  revert s. induction k as [|k IH]; intros [|c s]; try reflexivity.
  cbn [Py.str_take Py.str_drop]. rewrite str_app_cons, IH. reflexivity.
Qed.

Lemma str_drop_length (k : nat) s :
  String.length (Py.str_drop k s) = (String.length s - k)%nat.
Proof.
  revert s. induction k as [|k IH]; intros [|c s]; try reflexivity.
  cbn [Py.str_drop String.length]. rewrite IH. lia.
Qed.

Lemma str_lower_drop (k : nat) s :
  Py.str_lower (Py.str_drop k s) = Py.str_drop k (Py.str_lower s).
Proof.
  revert s. induction k as [|k IH]; intros [|c s]; try reflexivity.
  cbn [Py.str_drop Py.str_lower]. apply IH.
Qed.

Lemma str_lower_length s : String.length (Py.str_lower s) = String.length s.
Proof. induction s as [|c s IH]; [reflexivity|]. simpl. rewrite IH. reflexivity. Qed.

Lemma artifact_path_npy f : Py.str_endswith (artifact_path f) ".npy" = true.
Proof.
  unfold artifact_path, npy_file_name.
  destruct (Py.str_endswith (Py.join EMBEDDING_DIR (embedding_name f)) ".npy") eqn:E;
    [exact E | apply str_endswith_app].
Qed.

(** A selected scene file does not end in [.npy], nor does its path. *)
Lemma scene_path_not_npy f :
  Py.str_endswith (Py.str_lower f) ".mp4" = true ->
  Py.str_endswith (Py.join SCENE_DIR f) ".npy" = false.
Proof.
  intros Hsel. unfold Py.str_endswith in Hsel.
  apply andb_true_iff in Hsel as [Hlen Heq].
  apply Nat.leb_le in Hlen. apply String.eqb_eq in Heq.
  rewrite str_lower_length in Hlen, Heq. cbn [String.length] in Hlen, Heq.
  set (k := (String.length f - 4)%nat) in *.
  rewrite <- str_lower_drop in Heq.
  assert (Hf : f = Py.str_take k f +:+ Py.str_drop k f) by (symmetry; apply str_take_drop).
  assert (Ht : String.length (Py.str_drop k f) = String.length ".npy")
    by (rewrite str_drop_length; subst k; simpl; lia).
  assert (Hne : String.eqb (Py.str_drop k f) ".npy" = false).
  { apply String.eqb_neq. intros E. rewrite E in Heq. discriminate. }
  unfold Py.join. destruct (Py.str_startswith f "/").
  - rewrite Hf, (str_endswith_same_length _ _ _ Ht). exact Hne.
  - change (String.eqb SCENE_DIR "" || Py.str_endswith SCENE_DIR "/") with false.
    cbv iota. rewrite Hf, <- !str_app_assoc, (str_endswith_same_length _ _ _ Ht).
    exact Hne.
Qed.

Lemma scene_path_not_artifact f g :
  Py.str_endswith (Py.str_lower f) ".mp4" = true ->
  artifact_path g <> Py.join SCENE_DIR f.
Proof.
  intros Hsel E. pose proof (artifact_path_npy g) as H.
  rewrite E, (scene_path_not_npy f Hsel) in H. discriminate.
Qed.
End StringFacts.

(** ** Re-running the scene loop *)
Section SceneRerun.
Context {Frame Vec : Type}.
Implicit Types (w : World Frame Vec) (m : gmap string (File Frame Vec))
  (files : list string).
Variable encode : Frame -> Vec.

Lemma middle_frame_in_lookup m m' path :
  m !! path = m' !! path -> middle_frame_in m path = middle_frame_in m' path.
Proof.
  intros H. unfold middle_frame_in, extract_middle_frame, VideoCapture.
  cbn [fs]. rewrite H. destruct (m' !! path) as [[v| |]|]; try reflexivity.
  destruct (cap_read _) as [[frame|] c']; reflexivity.
Qed.

Lemma middle_frame_in_world path w :
  (extract_middle_frame path w).1 = middle_frame_in (fs w) path.
Proof.
  apply (extract_middle_frame_same_files path w {| fs := fs w; trace := [] |}).
  reflexivity.
Qed.

Lemma scene_writes_agree files m m' :
  (forall f, f ∈ files -> m !! Py.join SCENE_DIR f = m' !! Py.join SCENE_DIR f) ->
  scene_writes encode files m = scene_writes encode files m'.
Proof.
  induction files as [|f files IH]; intros H; [reflexivity|].
  unfold scene_writes in *. cbn [omap list_omap].
  rewrite (middle_frame_in_lookup m m' (Py.join SCENE_DIR f)) by (apply H; set_solver).
  rewrite IH by (intros g Hg; apply H; set_solver). reflexivity.
Qed.

Lemma store_all_union m (writes : list (string * File Frame Vec)) :
  store_all m writes = store_all ∅ writes ∪ m.
Proof.
  revert m. induction writes as [|kv writes IH]; intros m; cbn [store_all foldl].
  - rewrite (left_id_L ∅ (∪)). reflexivity.
  - fold (store_all (<[kv.1:=kv.2]> m) writes).
    fold (store_all (<[kv.1:=kv.2]> (∅ : gmap string (File Frame Vec))) writes).
    rewrite IH, (IH (<[_:=_]> ∅)).
    rewrite insert_empty, <- (assoc_L (∪)), <- insert_union_singleton_l.
    reflexivity.
Qed.

Lemma store_all_twice m (writes : list (string * File Frame Vec)) :
  store_all (store_all m writes) writes = store_all m writes.
Proof.
  rewrite (store_all_union (store_all m writes)), (store_all_union m).
  rewrite (assoc_L (∪)), (idemp_L (∪)). reflexivity.
Qed.

(** The scene loop stores exactly the artifacts that can be read off the
    file system it starts from: storing an artifact never changes what a
    selected scene file decodes to. *)
Lemma scene_loop_stores files w :
  Forall (fun f => Py.str_endswith (Py.str_lower f) ".mp4" = true) files ->
  fs (scene_loop encode files w) = store_all (fs w) (scene_writes encode files (fs w)).
Proof.
  revert w. induction files as [|f files IH]; intros w Hsel; [reflexivity|].
  apply Forall_cons in Hsel as [Hf Hsel].
  cbn [scene_loop foldl].
  fold (scene_loop encode files (scene_body encode f w)).
  rewrite (IH _ Hsel).
  pose proof (scene_body_spec encode f w) as Hb.
  rewrite middle_frame_in_world in Hb.
  unfold scene_writes at 2. cbn [omap list_omap].
  fold (scene_writes encode files (fs w)).
  destruct (middle_frame_in (fs w) (Py.join SCENE_DIR f)) as [frame|].
  - destruct Hb as [Hfs _]. rewrite Hfs. cbn [store_all foldl fst snd].
    f_equal. apply scene_writes_agree. intros g Hg.
    apply lookup_insert_ne, scene_path_not_artifact.
    rewrite Forall_forall in Hsel. apply Hsel, Hg.
  - destruct Hb as [Hfs _]. rewrite Hfs. reflexivity.
Qed.

Lemma store_all_lookup_other m (writes : list (string * File Frame Vec)) p :
  (forall kv, kv ∈ writes -> kv.1 <> p) -> store_all m writes !! p = m !! p.
Proof.
  revert m. induction writes as [|kv writes IH]; intros m H; [reflexivity|].
  cbn [store_all foldl]. fold (store_all (<[kv.1:=kv.2]> m) writes).
  rewrite IH by (intros x Hx; apply H; set_solver).
  apply lookup_insert_ne, H. set_solver.
Qed.

Lemma scene_loop_twice files w :
  Forall (fun f => Py.str_endswith (Py.str_lower f) ".mp4" = true) files ->
  fs (scene_loop encode files (scene_loop encode files w))
  = fs (scene_loop encode files w).
Proof.
  intros Hsel.
  rewrite (scene_loop_stores files (scene_loop encode files w) Hsel).
  rewrite (scene_loop_stores files w Hsel).
  rewrite (scene_writes_agree files
             (store_all (fs w) (scene_writes encode files (fs w))) (fs w)).
  - apply store_all_twice.
  - intros f Hf. apply store_all_lookup_other. intros kv Hkv.
    unfold scene_writes in Hkv. apply list_elem_of_omap in Hkv as (g & Hg & Hkv).
    destruct (middle_frame_in (fs w) (Py.join SCENE_DIR g)); [|discriminate].
    inversion Hkv; subst. cbn [fst].
    apply scene_path_not_artifact.
    rewrite Forall_forall in Hsel. apply Hsel, Hf.
Qed.

Lemma scene_files_selected (listing : list string) :
  Forall (fun f => Py.str_endswith (Py.str_lower f) ".mp4" = true) (scene_files listing).
Proof.
  unfold scene_files. rewrite merge_sort_Permutation.
  apply Forall_forall. intros f Hf. apply list_elem_of_In, filter_In in Hf. apply Hf.
Qed.

(** X14.  Running the scene loop a second time over the same listing leaves
    the file system as the first run left it. *)
Theorem scene_loop_rerun_is_noop (listing : list string) w :
  fs (scene_loop encode (scene_files listing)
        (scene_loop encode (scene_files listing) w))
  = fs (scene_loop encode (scene_files listing) w).
Proof. apply scene_loop_twice, scene_files_selected. Qed.
End SceneRerun.

(** ** Sources with the same base name *)
Section Shadowed.
Context {Frame Vec : Type}.
Implicit Types (w : World Frame Vec).
Variable ffmpeg :
  string -> string -> gmap string (File Frame Vec) -> Z * gmap string (File Frame Vec).

(** X15.  When the target of a source with the same base name already
    exists, [convert_to_mp4] returns that target without running FFmpeg or
    touching the world, and the driver segments that existing file in
    place of the new source. *)
Theorem same_base_name_source_is_shadowed fuel first second rest w :
  base_name_of (Py.join INPUT_DIR second) = base_name_of (Py.join INPUT_DIR first) ->
  path_exists (mp4_output_path (Py.join INPUT_DIR first) TEMP_DIR) w = true ->
  convert_to_mp4 ffmpeg (Py.join INPUT_DIR second) TEMP_DIR w
  = (Some (mp4_output_path (Py.join INPUT_DIR first) TEMP_DIR), w) /\
  driver ffmpeg fuel (second :: rest) w
  = match split_video fuel (mp4_output_path (Py.join INPUT_DIR first) TEMP_DIR)
            OUTPUT_DIR CLIP_DURATION w with
    | Returned w2 => driver ffmpeg fuel rest w2
    | Raised => Raised
    | OutOfFuel => OutOfFuel
    end.
Proof.
  intros Hbase Hex.
  assert (Hp : mp4_output_path (Py.join INPUT_DIR second) TEMP_DIR
               = mp4_output_path (Py.join INPUT_DIR first) TEMP_DIR)
    by (unfold mp4_output_path; rewrite Hbase; reflexivity).
  assert (Hc : convert_to_mp4 ffmpeg (Py.join INPUT_DIR second) TEMP_DIR w
               = (Some (mp4_output_path (Py.join INPUT_DIR first) TEMP_DIR), w)).
  { unfold convert_to_mp4. rewrite Hp, Hex. reflexivity. }
  split; [exact Hc|].
  cbn [driver]. rewrite Hc.
  assert (truthy (Some (mp4_output_path (Py.join INPUT_DIR first) TEMP_DIR)) = true)
    as ->; [|reflexivity].
  destruct (mp4_output_path (Py.join INPUT_DIR first) TEMP_DIR) as [|c r] eqn:E;
    [|reflexivity].
  exfalso. revert E. apply join_nonempty.
  intros H. apply (f_equal String.length) in H. rewrite str_app_length in H.
  simpl in H. lia.
Qed.
End Shadowed.

(** ** Instances *)
Lemma segment_clip_contents_witness :
  (0 < 5 /\
   v_stream small_video = (Some <$> numbered 7) ++ [] /\
   v_frame_count small_video = Z.of_nat (length (numbered 7))) /\
  exists fuel s,
    segment fuel OUTPUT_DIR "a" 5 (open_capture small_video) = Some s /\
    frame_idx s = v_frame_count small_video /\
    cap_stream (cap s) = [] /\
    forall (i : nat) c, emitted s !! i = Some c ->
      c_index c = Z.of_nat i /\
      c_start c = Z.of_nat i * 5 /\
      c_path c = clip_path OUTPUT_DIR "a" (Z.of_nat i) /\
      c_frames c = take (Z.to_nat 5) (drop (i * Z.to_nat 5) (numbered 7)).
Proof.
  assert (H1 : 0 < 5) by lia.
  assert (H2 : v_stream small_video = (Some <$> numbered 7) ++ []) by reflexivity.
  assert (H3 : v_frame_count small_video = Z.of_nat (length (numbered 7))) by reflexivity.
  split; [repeat split; assumption|].
  exact (segment_clip_contents OUTPUT_DIR "a" 5 small_video (numbered 7) [] H1 H2 H3).
Defined.

Lemma segment_clip_count_witness :
  (0 < 5 /\
   v_stream small_video = (Some <$> numbered 7) ++ [] /\
   v_frame_count small_video = Z.of_nat (length (numbered 7))) /\
  exists fuel s,
    segment fuel OUTPUT_DIR "a" 5 (open_capture small_video) = Some s /\
    clip_idx s = (v_frame_count small_video + 5 - 1) / 5 /\
    Z.of_nat (length (emitted s)) = (v_frame_count small_video + 5 - 1) / 5.
Proof.
  assert (H1 : 0 < 5) by lia.
  assert (H2 : v_stream small_video = (Some <$> numbered 7) ++ []) by reflexivity.
  assert (H3 : v_frame_count small_video = Z.of_nat (length (numbered 7))) by reflexivity.
  split; [repeat split; assumption|].
  exact (segment_clip_count OUTPUT_DIR "a" 5 small_video (numbered 7) [] H1 H2 H3).
Defined.

Lemma split_video_touches_only_clip_paths_witness :
  let mp4 := "video_data/converted_videos/a.mp4" in
  let w : World nat (list Z) := world_with mp4 small_video in
  exists w',
    split_video 3 mp4 OUTPUT_DIR CLIP_DURATION w = Returned w' /\
    (forall p, (forall i, p <> clip_path OUTPUT_DIR (base_name_of mp4) i) ->
               fs w' !! p = fs w !! p) /\
    (forall p, is_Some (fs w !! p) -> is_Some (fs w' !! p)).
Proof.
  intros mp4 w.
  destruct (split_video 3 mp4 OUTPUT_DIR CLIP_DURATION w) as [w'| |] eqn:E;
    [|vm_compute in E; discriminate..].
  exists w'. split; [reflexivity|].
  exact (split_video_touches_only_clip_paths 3 mp4 OUTPUT_DIR CLIP_DURATION w w' E).
Defined.

Lemma clip_names_distinct_witness :
  (0 <= 1 /\ 0 <= 1000 /\ 1 <> 1000) /\
  clip_path OUTPUT_DIR "a" 1 <> clip_path OUTPUT_DIR "a" 1000.
Proof.
  assert (H1 : 0 <= 1) by lia. assert (H2 : 0 <= 1000) by lia.
  assert (H3 : 1 <> 1000) by lia.
  split; [repeat split; assumption|].
  exact (clip_names_distinct OUTPUT_DIR "a" 1 1000 H1 H2 H3).
Defined.

Lemma segment_clips_have_distinct_paths_witness :
  exists s,
    segment 100 OUTPUT_DIR "v" 5
      (open_capture (plain_video 1 8 [0; 1; 2; 3; 4; 5; 6; 7]%nat)) = Some s /\
    NoDup (c_path <$> emitted s) /\
    forall (i : nat) cl, emitted s !! i = Some cl ->
      c_path cl = clip_path OUTPUT_DIR "v" (Z.of_nat i).
Proof.
  destruct (segment 100 OUTPUT_DIR "v" 5
              (open_capture (plain_video 1 8 [0; 1; 2; 3; 4; 5; 6; 7]%nat)))
    as [s|] eqn:E; [|vm_compute in E; discriminate].
  exists s. split; [reflexivity|].
  exact (segment_clips_have_distinct_paths 100 OUTPUT_DIR "v" 5 _ s E).
Defined.

Lemma keyframe_of_clip_witness :
  (0 < 5 /\
   v_stream small_video = (Some <$> numbered 7) ++ [] /\
   v_frame_count small_video = Z.of_nat (length (numbered 7)) /\
   Z.of_nat 1 * 5 < v_frame_count small_video) /\
  exists fuel s cl,
    segment fuel OUTPUT_DIR "a" 5 (open_capture small_video) = Some s /\
    emitted s !! 1%nat = Some cl /\
    c_path cl = clip_path OUTPUT_DIR "a" (Z.of_nat 1) /\
    Z.of_nat (length (c_frames cl))
    = Z.min 5 (v_frame_count small_video - Z.of_nat 1 * 5) /\
    forall (w : World nat (list Z)) (stored : Video nat),
      fs w !! c_path cl = Some (FVideo stored) ->
      v_frame_count stored = Z.of_nat (length (c_frames cl)) ->
      frame_at stored (v_frame_count stored / 2)
      = c_frames cl !! Z.to_nat (v_frame_count stored / 2) ->
      (extract_middle_frame (c_path cl) w).1
      = numbered 7 !! Z.to_nat (Z.of_nat 1 * 5
                                + Z.min 5 (v_frame_count small_video - Z.of_nat 1 * 5) / 2).
Proof.
  assert (H1 : 0 < 5) by lia.
  assert (H2 : v_stream small_video = (Some <$> numbered 7) ++ []) by reflexivity.
  assert (H3 : v_frame_count small_video = Z.of_nat (length (numbered 7))) by reflexivity.
  assert (H4 : Z.of_nat 1 * 5 < v_frame_count small_video) by (simpl; lia).
  split; [repeat split; assumption|].
  exact (keyframe_of_clip (Vec:=list Z) OUTPUT_DIR "a" 5 small_video (numbered 7) [] 1
           H1 H2 H3 H4).
Defined.

(** The hypotheses on the stored file hold for the two-frame file a
    lossless writer leaves for clip 1 of the seven-frame video; its
    keyframe is source frame 6. *)
Example keyframe_of_clip_stored_instance :
  let clip_video := plain_video 1 2 [5; 6]%nat in
  let w := world_with (clip_path OUTPUT_DIR "a" 1) clip_video in
  v_frame_count clip_video = 2 /\
  frame_at clip_video (2 / 2) = [5; 6]%nat !! Z.to_nat (2 / 2) /\
  (extract_middle_frame (clip_path OUTPUT_DIR "a" 1) w).1 = Some 6%nat.
Proof. repeat split; reflexivity. Qed.

Lemma driver_segments_every_converted_video_witness :
  exists p w1,
    convert_to_mp4 ffmpeg_copy (Py.join INPUT_DIR "a.mov") TEMP_DIR raw_world = (Some p, w1) /\
    p = mp4_output_path (Py.join INPUT_DIR "a.mov") TEMP_DIR /\
    driver ffmpeg_copy 4 ("a.mov" :: []) raw_world
    = match split_video 4 p OUTPUT_DIR CLIP_DURATION w1 with
      | Returned w2 => driver ffmpeg_copy 4 [] w2
      | Raised => Raised
      | OutOfFuel => OutOfFuel
      end.
Proof.
  destruct (convert_to_mp4 ffmpeg_copy (Py.join INPUT_DIR "a.mov") TEMP_DIR raw_world)
    as [[p|] w1] eqn:E; [|vm_compute in E; discriminate].
  exists p, w1. split; [reflexivity|].
  exact (driver_segments_every_converted_video ffmpeg_copy 4 "a.mov" [] raw_world p w1 E).
Defined.

Lemma clip_files_reach_the_embedding_stage_witness :
  clip_file_name "a" 0 ∈ ["notes.txt"; "a_clip_000.mp4"] /\
  clip_file_name "a" 0 ∈ scene_files ["notes.txt"; "a_clip_000.mp4"] /\
  Py.join OUTPUT_DIR (clip_file_name "a" 0) = clip_path OUTPUT_DIR "a" 0.
Proof.
  assert (H : clip_file_name "a" 0 ∈ ["notes.txt"; "a_clip_000.mp4"])
    by (apply list_elem_of_In; right; left; reflexivity).
  split; [exact H|].
  exact (clip_files_reach_the_embedding_stage "a" 0 ["notes.txt"; "a_clip_000.mp4"] H).
Defined.

Lemma upper_case_extension_is_kept_witness :
  Py.str_contains ("X" +:+ ".MP4") ".mp4" = false /\
  Py.str_endswith (Py.str_lower ("X" +:+ ".MP4")) ".mp4" = true /\
  artifact_path ("X" +:+ ".MP4") = Py.join EMBEDDING_DIR ("X" +:+ ".MP4") +:+ ".npy".
Proof.
  assert (H : Py.str_contains ("X" +:+ ".MP4") ".mp4" = false) by reflexivity.
  split; [exact H|]. exact (upper_case_extension_is_kept "X" H).
Defined.

Lemma segment_invariants_at_every_pass_witness :
  exists s,
    segment_after 4 OUTPUT_DIR "v" 5 (open_capture truncated_video) = Some s /\
    length (emitted s) = 4%nat /\
    clip_idx s = Z.of_nat 4 /\
    frame_idx s = frames_total (emitted s) /\
    0 <= frame_idx s
      <= Z.max 0 (v_frame_count (cap_video (open_capture truncated_video))) /\
    (forall (i : nat) cl, emitted s !! i = Some cl ->
       c_index cl = Z.of_nat i /\
       c_start cl = frames_total (take i (emitted s)) /\
       Z.of_nat (length (c_frames cl)) <= Z.max 0 5).
Proof.
  destruct (segment_after 4 OUTPUT_DIR "v" 5 (open_capture truncated_video))
    as [s|] eqn:E; [|vm_compute in E; discriminate].
  exists s. split; [reflexivity|].
  exact (segment_invariants_at_every_pass OUTPUT_DIR "v" 4 5
           (open_capture truncated_video) s E).
Defined.

Lemma same_base_name_source_is_shadowed_witness :
  let w : World nat (list Z) := world_with "video_data/converted_videos/a.mp4" small_video in
  (base_name_of (Py.join INPUT_DIR "a.avi") = base_name_of (Py.join INPUT_DIR "a.mov") /\
   path_exists (mp4_output_path (Py.join INPUT_DIR "a.mov") TEMP_DIR) w = true) /\
  convert_to_mp4 ffmpeg_copy (Py.join INPUT_DIR "a.avi") TEMP_DIR w
  = (Some (mp4_output_path (Py.join INPUT_DIR "a.mov") TEMP_DIR), w) /\
  driver ffmpeg_copy 3 ("a.avi" :: []) w
  = match split_video 3 (mp4_output_path (Py.join INPUT_DIR "a.mov") TEMP_DIR)
            OUTPUT_DIR CLIP_DURATION w with
    | Returned w2 => driver ffmpeg_copy 3 [] w2
    | Raised => Raised
    | OutOfFuel => OutOfFuel
    end.
Proof.
  intros w.
  assert (H1 : base_name_of (Py.join INPUT_DIR "a.avi")
               = base_name_of (Py.join INPUT_DIR "a.mov")) by reflexivity.
  assert (H2 : path_exists (mp4_output_path (Py.join INPUT_DIR "a.mov") TEMP_DIR) w = true)
    by (vm_compute; reflexivity).
  split; [split; assumption|].
  exact (same_base_name_source_is_shadowed ffmpeg_copy 3 "a.mov" "a.avi" [] w H1 H2).
Defined.
